(** * create_AOI: the validation and normalisation pipeline of [create_AOI.py]

    A shallow embedding of the field validators of [create_AOI.py]
    ([validate_type], [generate_label], [validate_time],
    [validate_event_time], [validate_geojson], [parse_emails],
    [parse_additional_metadata], [build_aoi_ds], [build_aoi_met]) and the
    properties of them that the specification states.

    Conventions of the embedding.
    - A Python value is a [pyval]: the values [json.load] produces ([None],
      booleans, integers, floats, strings, lists, dictionaries with string
      keys) and tuples, which [shapely.geometry.mapping] yields.
    - A Python [str] is a [string]: the sequence of the bytes of its UTF-8
      encoding.  Every string operation of the script ([replace], [split],
      [lstrip], [startswith], the character class [[^a-zA-Z0-9_]]) singles
      out ASCII characters only, and acts on a code point outside ASCII the
      way it acts on each byte of its encoding.
    - A raised exception is a value of [pyexc]; a function that can raise
      returns a [result].  The functions that assign into a dictionary they
      were given ([build_aoi_ds], [build_aoi_met],
      [parse_additional_metadata]) run in the state monad [M] over that
      dictionary, so that what was assigned before an exception stays
      assigned.
    - The libraries the script calls ([dateutil.parser.parse], [json.loads],
      [ast.literal_eval], shapely's [Polygon] and [mapping], the iteration
      order of a [set], the C library's text for [%Y]) are Variables of the
      Section that uses them. *)

From Stdlib Require Import ZArith Ascii Permutation.
From Stdlib Require Import Floats.PrimFloat Floats.SpecFloat Floats.FloatOps.
From Stdlib Require Uint63.
From stdpp Require Import gmap strings list fin_maps.

Local Open Scope Z_scope.

(** ** Python values *)

#[warnings="-register-all"]
Inductive pyval : Type :=
| PNone
| PBool (b : bool)
| PInt (z : Z)
| PFloat (f : float)
| PStr (s : string)
| PList (l : list pyval)
| PTuple (l : list pyval)
| PDict (d : gmap string pyval).

Abbreviation pydict := (gmap string pyval).

(** ** Exceptions and results *)

(** [PyException fmt args] is [Exception(fmt.format( *args))]: the message
    is kept as its template and its arguments. *)
Inductive pyexc : Type :=
| PyException (fmt : string) (args : list pyval)
| KeyError (key : string)
| AttributeError (attr : string)
| TypeError (what : string)
| UnboundLocalError (var : string).

Inductive result (A : Type) : Type :=
| Ok (a : A)
| Raise (e : pyexc).
Arguments Ok {A} a.
Arguments Raise {A} e.

#[export] Instance result_ret : MRet result := fun A a => Ok a.
#[export] Instance result_bind : MBind result := fun A B f r =>
  match r with
  | Ok a => f a
  | Raise e => Raise e
  end.

#[export] Instance result_fmap : FMap result := fun A B f r =>
  match r with
  | Ok a => Ok (f a)
  | Raise e => Raise e
  end.

(** A [try: ... except: raise Exception(fmt.format(arg))] around a library
    call that either yields a value or raises. *)
Definition try_or_raise {A} (o : option A) (fmt : string) (arg : pyval)
  : result A :=
  match o with
  | Some a => Ok a
  | None => Raise (PyException fmt [arg])
  end.

(** [d[k]] on a dictionary. *)
Definition getitem (d : pydict) (k : string) : result pyval :=
  match d !! k with
  | Some v => Ok v
  | None => Raise (KeyError k)
  end.

(** The receiver of a [str] method: no other value of [pyval] has the
    methods [replace] and [split]. *)
Definition str_receiver (attr : string) (v : pyval) : result string :=
  match v with
  | PStr s => Ok s
  | _ => Raise (AttributeError attr)
  end.

(** ** String operations *)

Module Str.

(** [s.replace(old, new)] for a one-character [old]. *)
Fixpoint replace (old : ascii) (new : string) (s : string) : string :=
  match s with
  | EmptyString => EmptyString
  | String c r =>
      if Ascii.eqb c old then new +:+ replace old new r
      else String c (replace old new r)
  end.

(** [re.sub("[...]+", repl, s)] for a character class given by its
    membership test [cls]: every maximal run of characters of the class is
    replaced by one [repl].  [in_run] tells that the character before the
    current one belonged to a run already replaced. *)
Fixpoint sub_runs (cls : ascii -> bool) (repl : string) (in_run : bool)
  (s : string) : string :=
  match s with
  | EmptyString => EmptyString
  | String c r =>
      if cls c then
        if in_run then sub_runs cls repl true r
        else repl +:+ sub_runs cls repl true r
      else String c (sub_runs cls repl false r)
  end.

Definition re_sub (cls : ascii -> bool) (repl s : string) : string :=
  sub_runs cls repl false s.

(** [c in chars]. *)
Fixpoint mem (c : ascii) (chars : string) : bool :=
  match chars with
  | EmptyString => false
  | String d r => Ascii.eqb c d || mem c r
  end.

(** [s.lstrip(chars)]: the leading characters that occur in [chars] are
    dropped, whatever their order. *)
Fixpoint lstrip (chars : string) (s : string) : string :=
  match s with
  | EmptyString => EmptyString
  | String c r => if mem c chars then lstrip chars r else s
  end.

(** [s.startswith(p)]. *)
Fixpoint startswith (s p : string) : bool :=
  match p, s with
  | EmptyString, _ => true
  | String a p', String b s' => Ascii.eqb a b && startswith s' p'
  | String _ _, EmptyString => false
  end.

(** [s.split(sep)] for a one-character [sep]: never the empty list. *)
Fixpoint split (sep : ascii) (s : string) : list string :=
  match s with
  | EmptyString => [EmptyString]
  | String c r =>
      if Ascii.eqb c sep then EmptyString :: split sep r
      else match split sep r with
           | piece :: pieces => String c piece :: pieces
           | [] => [String c EmptyString]
           end
  end.

(** [sep.join(pieces)]. *)
Fixpoint join (sep : ascii) (pieces : list string) : string :=
  match pieces with
  | [] => EmptyString
  | [p] => p
  | p :: ps => p +:+ String sep (join sep ps)
  end.

Fixpoint filter (keep : ascii -> bool) (s : string) : string :=
  match s with
  | EmptyString => EmptyString
  | String c r => if keep c then String c (filter keep r) else filter keep r
  end.

Fixpoint all (p : ascii -> bool) (s : string) : bool :=
  match s with
  | EmptyString => true
  | String c r => p c && all p r
  end.

Fixpoint drop (n : nat) (s : string) : string :=
  match n, s with
  | O, _ => s
  | S n', String _ r => drop n' r
  | S _, EmptyString => EmptyString
  end.

(** The leading continuation bytes ([0x80] to [0xBF]) of [s]. *)
Fixpoint continuation (s : string) : string :=
  match s with
  | EmptyString => EmptyString
  | String c r =>
      let n := nat_of_ascii c in
      if (128 <=? n)%nat && (n <=? 191)%nat then String c (continuation r)
      else EmptyString
  end.

End Str.

(** ** The label and type sanitiser *)

Definition in_range (lo hi : nat) (c : ascii) : bool :=
  let n := nat_of_ascii c in (lo <=? n)%nat && (n <=? hi)%nat.

(** The characters of the class [[a-zA-Z0-9_]]. *)
Definition word_char (c : ascii) : bool :=
  in_range 97 122 c || in_range 65 90 c || in_range 48 57 c
  || Ascii.eqb c "_".

(** The class [[^a-zA-Z0-9_]] of the pattern. *)
Definition non_word_char (c : ascii) : bool := negb (word_char c).

(** [re.sub(r"[^a-zA-Z0-9_]+", '', s.replace(' ', '_'))], the expression
    [validate_type] and [generate_label] share. *)
Definition sanitize (s : string) : string :=
  Str.re_sub non_word_char "" (Str.replace " " "_" s).

Definition validate_type (aoi_type : pyval) : result string :=
  aoi_type ← str_receiver "replace" aoi_type;
  mret (sanitize aoi_type).

(** [aoi_type] is the string [validate_type] returned. *)
Definition generate_label (label : pyval) (aoi_type : string) : result string :=
  label ← str_receiver "replace" label;
  let label := sanitize label in
  let label :=
    if Str.startswith label "AOI_" then Str.lstrip "AOI_" label else label in
  mret ("AOI_" +:+ aoi_type +:+ "_" +:+ label).

(** The label the specification describes: only a literal leading [AOI_] is
    taken off the sanitised name. *)
Definition remove_literal_prefix (p s : string) : string :=
  if Str.startswith s p then Str.drop (String.length p) s else s.

Definition generate_label_literal (label aoi_type : string) : string :=
  "AOI_" +:+ aoi_type +:+ "_" +:+ remove_literal_prefix "AOI_" (sanitize label).

(** ** The e-mail list parser *)

Definition validate_email (email : pyval) : result pyval :=
  email ← str_receiver "replace" email;
  mret (PStr (Str.replace " " "" email)).

(** The list comprehension [[validate_email(item) for item in items]]. *)
Fixpoint validate_emails (items : list pyval) : result (list pyval) :=
  match items with
  | [] => mret []
  | item :: rest =>
      e ← validate_email item;
      es ← validate_emails rest;
      mret (e :: es)
  end.

Definition parse_emails (emails : pyval) : result (list pyval) :=
  match emails with
  | PList items => validate_emails items
  | _ =>
      emails ← str_receiver "split" emails;
      validate_emails (PStr <$> Str.split "," emails)
  end.

(** ** Lists and sets of Python values *)

(** [a + b] with [b] a list: defined for a list [a] only. *)
Definition list_add (a : pyval) (b : list pyval) : result (list pyval) :=
  match a with
  | PList l => Ok (l ++ b)
  | _ => Raise (TypeError "+")
  end.

Fixpoint hashable (v : pyval) : bool :=
  match v with
  | PList _ | PDict _ => false
  | PTuple l =>
      (fix all_hashable (l : list pyval) : bool :=
         match l with
         | [] => true
         | x :: r => hashable x && all_hashable r
         end) l
  | _ => true
  end.

(** The exact comparison of a float with an integer. *)
Definition float_eq_Z (f : float) (z : Z) : bool :=
  match Prim2SF f with
  | S754_zero _ => z =? 0
  | S754_finite sign m e =>
      let v := if sign then Z.neg m else Z.pos m in
      if 0 <=? e then v * 2 ^ e =? z else v =? z * 2 ^ (- e)
  | _ => false
  end.

(** [a == b] between the values a set can hold: numbers compare by value
    across [bool], [int] and [float], tuples element by element, and values
    of different kinds are unequal.  (A set finds a member by identity
    before it compares: two occurrences of one NaN object, unequal here, are
    one member there.) *)
Fixpoint py_eqb (a b : pyval) : bool :=
  match a, b with
  | PNone, PNone => true
  | PStr s, PStr t => String.eqb s t
  | PTuple l1, PTuple l2 =>
      (fix all_eqb (l1 l2 : list pyval) : bool :=
         match l1, l2 with
         | [], [] => true
         | x :: r1, y :: r2 => py_eqb x y && all_eqb r1 r2
         | _, _ => false
         end) l1 l2
  | PBool x, PBool y => Bool.eqb x y
  | PBool x, PInt z | PInt z, PBool x => Z.b2z x =? z
  | PBool x, PFloat f | PFloat f, PBool x => float_eq_Z f (Z.b2z x)
  | PInt x, PInt y => x =? y
  | PInt z, PFloat f | PFloat f, PInt z => float_eq_Z f z
  | PFloat f, PFloat g => PrimFloat.eqb f g
  | _, _ => false
  end.

(** One insertion into a set, held as the list of its members in the order
    they were first inserted. *)
Definition set_insert (members : list pyval) (x : pyval) : list pyval :=
  if existsb (py_eqb x) members then members else members ++ [x].

(** [set(l)]: its members, or [TypeError] on an unhashable element. *)
Definition py_set (l : list pyval) : result (list pyval) :=
  if forallb hashable l then Ok (fold_left set_insert l [])
  else Raise (TypeError "unhashable type").

(** ** The state monad over the dictionary that is assigned into *)

Definition M (A : Type) : Type := pydict -> result A * pydict.

#[export] Instance M_ret : MRet M := fun A a d => (Ok a, d).
#[export] Instance M_bind : MBind M := fun A B f m d =>
  match m d with
  | (Ok a, d') => f a d'
  | (Raise e, d') => (Raise e, d')
  end.

Definition lift {A} (r : result A) : M A := fun d => (r, d).

(** [d[k] = v] and [d[k]] on the dictionary of the state. *)
Definition setitem (k : string) (v : pyval) : M unit :=
  fun d => (Ok tt, <[k := v]> d).
Definition getitem_state (k : string) : M pyval :=
  fun d => (getitem d k, d).

(** [k in d.keys()]. *)
Definition has_key (d : pydict) (k : string) : bool :=
  bool_decide (is_Some (d !! k)).

(** The receiver of [.keys()]: a dictionary. *)
Definition dict_receiver (v : pyval) : result pydict :=
  match v with
  | PDict d => Ok d
  | _ => Raise (AttributeError "keys")
  end.

(** ** Date-times *)

(** A [datetime.datetime]: its wall-clock fields, and the offset of its
    [tzinfo] from UTC in seconds ([None] for a naive date-time); the
    microseconds, which no directive of the script reads, are left out.  A
    value of the class has [1 <= year <= 9999], a day that exists in its
    month, and time fields in range. *)
Record datetime : Type := mkDatetime {
  year : Z; month : Z; day : Z;
  hour : Z; minute : Z; second : Z;
  utcoffset : option Z
}.

Definition digit (n : Z) : ascii := ascii_of_nat (48 + Z.to_nat (n mod 10)).

(** The two zero-padded decimal digits [strftime] gives for a month, day,
    hour, minute or second. *)
Definition zero_pad2 (n : Z) : string :=
  String (digit (n / 10)) (String (digit n) "").

(** The four decimal digits of a year from 1000 to 9999. *)
Definition four_digits (n : Z) : string :=
  String (digit (n / 1000)) (String (digit (n / 100)) (zero_pad2 n)).

(** One directive of a format.  What [%Y] gives is the C library's to
    decide: [year_digits y] is its text for the year [y].  The libraries
    agree on a year from 1000 on (its four digits) and differ below (glibc
    gives [999], others [0999]), so [year_digits] is left open here and is a
    Variable of the pipeline. *)
Definition directive (year_digits : Z -> string) (d : ascii) (dt : datetime)
  : string :=
  if Ascii.eqb d "Y" then year_digits (year dt)
  else if Ascii.eqb d "m" then zero_pad2 (month dt)
  else if Ascii.eqb d "d" then zero_pad2 (day dt)
  else if Ascii.eqb d "H" then zero_pad2 (hour dt)
  else if Ascii.eqb d "M" then zero_pad2 (minute dt)
  else if Ascii.eqb d "S" then zero_pad2 (second dt)
  else if Ascii.eqb d "%" then "%"
  else String "%" (String d "").

(** [dt.strftime(fmt)] for the directives [%Y %m %d %H %M %S %%]; any other
    character of the format is copied.  No directive reads [utcoffset]. *)
Fixpoint strftime (year_digits : Z -> string) (dt : datetime) (fmt : string)
  : string :=
  match fmt with
  | EmptyString => EmptyString
  | String c r =>
      if Ascii.eqb c "%" then
        match r with
        | String d r' =>
            directive year_digits d dt +:+ strftime year_digits dt r'
        | EmptyString => "%"
        end
      else String c (strftime year_digits dt r)
  end.

(** *** The instant of a date-time, for the comparison with UTC *)

(** Days from 1970-01-01 to the civil date [y]-[m]-[d] of the proleptic
    Gregorian calendar. *)
Definition days_from_civil (y m d : Z) : Z :=
  let y := if m <=? 2 then y - 1 else y in
  let era := y / 400 in
  let yoe := y - era * 400 in
  let doy := (153 * (if 2 <? m then m - 3 else m + 9) + 2) / 5 + d - 1 in
  let doe := yoe * 365 + yoe / 4 - yoe / 100 + doy in
  era * 146097 + doe - 719468.

Definition civil_from_days (z : Z) : Z * Z * Z :=
  let z := z + 719468 in
  let era := z / 146097 in
  let doe := z - era * 146097 in
  let yoe := (doe - doe / 1460 + doe / 36524 - doe / 146096) / 365 in
  let doy := doe - (365 * yoe + yoe / 4 - yoe / 100) in
  let mp := (5 * doy + 2) / 153 in
  let d := doy - (153 * mp + 2) / 5 + 1 in
  let m := if mp <? 10 then mp + 3 else mp - 9 in
  (if m <=? 2 then yoe + era * 400 + 1 else yoe + era * 400, m, d).

(** Seconds from 1970-01-01T00:00:00 UTC to the instant [dt] denotes; a naive
    date-time is read as UTC. *)
Definition instant (dt : datetime) : Z :=
  days_from_civil (year dt) (month dt) (day dt) * 86400
  + hour dt * 3600 + minute dt * 60 + second dt
  - default 0 (utcoffset dt).

(** [dt.astimezone(utc)]: the same instant with the wall-clock fields of
    UTC. *)
Definition astimezone_utc (dt : datetime) : datetime :=
  match utcoffset dt with
  | None => dt
  | Some _ =>
      let t := instant dt in
      let '(y, m, d) := civil_from_days (t / 86400) in
      let s := t mod 86400 in
      mkDatetime y m d (s / 3600) (s mod 3600 / 60) (s mod 60) (Some 0)
  end.

(** ** The notions the specification uses *)

(** A string with every space taken out. *)
Definition remove_spaces (s : string) : string :=
  Str.filter (fun c => negb (Ascii.eqb c " ")) s.

(** The instant of [dt] re-expressed in UTC, as [YYYY-MM-DDTHH:MM:SSZ]. *)
Definition utc_rendering (year_digits : Z -> string) (dt : datetime) : string :=
  strftime year_digits (astimezone_utc dt) "%Y-%m-%dT%H:%M:%SZ".

Definition is_digit (c : ascii) : bool := in_range 48 57 c.

(** The shape [dddd-dd-ddTdd:dd:ddZ], [d] a decimal digit. *)
Definition iso_z_shape (s : string) : bool :=
  match String.list_ascii_of_string s with
  | [y1; y2; y3; y4; a; m1; m2; b; d1; d2; t; h1; h2; c; n1; n2; d; s1; s2; z] =>
      forallb is_digit [y1; y2; y3; y4; m1; m2; d1; d2; h1; h2; n1; n2; s1; s2]
      && Ascii.eqb a "-" && Ascii.eqb b "-" && Ascii.eqb t "T"
      && Ascii.eqb c ":" && Ascii.eqb d ":" && Ascii.eqb z "Z"
  | _ => false
  end.

Definition is_str (v : pyval) : bool :=
  match v with
  | PStr _ => true
  | _ => false
  end.

(** The keys of [met] that [parse_additional_metadata] assigns. *)
Definition additional_metadata_keys : list string :=
  ["username"; "eventtime"; "image_url"; "event_metadata"].

(** A computation of [M] assigns to keys of [keys] only: whatever its
    outcome, the dictionary it leaves agrees with the one it started from on
    every other key. *)
Definition assigns_only {A} (keys : list string) (m : M A) : Prop :=
  forall (d : pydict) (k : string), k ∉ keys -> (m d).2 !! k = d !! k.

(** The keys of [ds] that [build_aoi_ds] assigns, and the keys of the
    context it reads unconditionally. *)
Definition dataset_keys : list string :=
  ["label"; "type"; "account"; "location"; "starttime"; "endtime"; "emails"].
Definition required_keys : list string :=
  ["type"; "name"; "account"; "geojson_polygon"; "starttime"; "endtime"].

(** The number of occurrences of [c] in [s]. *)
Fixpoint count_char (c : ascii) (s : string) : nat :=
  match s with
  | EmptyString => O
  | String d r => if Ascii.eqb d c then S (count_char c r) else count_char c r
  end.

(** A date-time with a year of four digits. *)
Definition four_digit_year (dt : datetime) : Prop := 1000 <= year dt <= 9999.

(** A computation of [M] keeps the property [P] of the dictionary, whatever
    its outcome. *)
Definition preserves {A} (P : pydict -> Prop) (m : M A) : Prop :=
  forall d : pydict, P d -> P (m d).2.

(** ** Library behaviour on small fragments, to run the pipeline

    The pipeline is a function of the libraries it calls.  The definitions
    of this part give those libraries on a fragment of their inputs each,
    so that the pipeline can be evaluated on concrete contexts. *)

(** The C library's [%Y] as glibc has it, for a year from 1 to 9999: the
    decimal digits of the year, without padding. *)
Definition glibc_year (y : Z) : string :=
  if 1000 <=? y then four_digits y
  else if 100 <=? y then String (digit (y / 100)) (zero_pad2 y)
  else if 10 <=? y then zero_pad2 y
  else String (digit y) "".

Definition digit_value (c : ascii) : option Z :=
  if in_range 48 57 c then Some (Z.of_nat (nat_of_ascii c) - 48) else None.

Definition two_digits (a b : ascii) : option Z :=
  x ← digit_value a; y ← digit_value b; Some (10 * x + y).

Definition days_in_month (y m : Z) : Z :=
  if m =? 2 then
    if ((y mod 4 =? 0) && negb (y mod 100 =? 0)) || (y mod 400 =? 0)
    then 29 else 28
  else if (m =? 4) || (m =? 6) || (m =? 9) || (m =? 11) then 30 else 31.

Definition valid_datetime (dt : datetime) : bool :=
  (1 <=? year dt) && (year dt <=? 9999)
  && (1 <=? month dt) && (month dt <=? 12)
  && (1 <=? day dt) && (day dt <=? days_in_month (year dt) (month dt))
  && (0 <=? hour dt) && (hour dt <? 24)
  && (0 <=? minute dt) && (minute dt <? 60)
  && (0 <=? second dt) && (second dt <? 60).

(** The UTC offset suffix: nothing (naive), [Z], or [+HH:MM] / [-HH:MM]. *)
Definition iso_offset (l : list ascii) : option (option Z) :=
  match l with
  | [] => Some None
  | ["Z"%char] => Some (Some 0)
  | [sign; h1; h2; ":"%char; m1; m2] =>
      h ← two_digits h1 h2; m ← two_digits m1 m2;
      if Ascii.eqb sign "+" then Some (Some (h * 3600 + m * 60))
      else if Ascii.eqb sign "-" then Some (Some (- (h * 3600 + m * 60)))
      else None
  | _ => None
  end.

(** The time of day after the date: nothing (midnight), or a separator
    ([T] or a space), [HH:MM], optional [:SS], and the offset. *)
Definition iso_time (l : list ascii) : option (Z * Z * Z * option Z) :=
  match l with
  | [] => Some (0, 0, 0, None)
  | sep :: h1 :: h2 :: ":"%char :: m1 :: m2 :: rest =>
      if Ascii.eqb sep "T" || Ascii.eqb sep " " then
        h ← two_digits h1 h2; m ← two_digits m1 m2;
        match rest with
        | ":"%char :: s1 :: s2 :: rest' =>
            s ← two_digits s1 s2; off ← iso_offset rest';
            Some (h, m, s, off)
        | _ => off ← iso_offset rest; Some (h, m, 0, off)
        end
      else None
  | _ => None
  end.

(** [dateutil.parser.parse] on the strings of the shape
    [YYYY-MM-DD[(T| )HH:MM[:SS][Z|+HH:MM|-HH:MM]]]; every other string is
    taken as unparseable. *)
Definition dateutil_iso (s : string) : option datetime :=
  match String.list_ascii_of_string s with
  | y1 :: y2 :: y3 :: y4 :: "-"%char :: m1 :: m2 :: "-"%char :: d1 :: d2 :: rest =>
      yh ← two_digits y1 y2; yl ← two_digits y3 y4;
      m ← two_digits m1 m2; d ← two_digits d1 d2;
      '(h, mi, sec, off) ← iso_time rest;
      let dt := mkDatetime (100 * yh + yl) m d h mi sec off in
      if valid_datetime dt then Some dt else None
  | _ => None
  end.

(** A coordinate of a ring: an integer a float holds exactly, or a float. *)
Definition coordinate (v : pyval) : option float :=
  match v with
  | PInt z =>
      if Z.abs z <? 2 ^ 53 then
        let f := PrimFloat.of_uint63 (Uint63.of_Z (Z.abs z)) in
        Some (if z <? 0 then PrimFloat.opp f else f)
      else None
  | PFloat f => Some f
  | _ => None
  end.

Definition point (v : pyval) : option (float * float) :=
  match v with
  | PList [x; y] | PTuple [x; y] =>
      a ← coordinate x; b ← coordinate y; Some (a, b)
  | _ => None
  end.

Definition point_eqb (p q : float * float) : bool :=
  PrimFloat.eqb (fst p) (fst q) && PrimFloat.eqb (snd p) (snd q).

(** The ring with its first point repeated at the end, if it is not
    already. *)
Definition close_ring (ring : list (float * float)) : list (float * float) :=
  match ring, last ring with
  | first :: _, Some final =>
      if point_eqb first final then ring else ring ++ [first]
  | _, _ => ring
  end.

(** Shapely's [Polygon(shell)] on a list or tuple of two-dimensional points
    whose closed ring has four points or more; every other argument is
    taken as rejected.  The geometry is its closed exterior ring. *)
Definition ring_polygon (shell : pyval) : option (list (float * float)) :=
  match shell with
  | PList pts | PTuple pts =>
      ring ← mapM point pts;
      let ring := close_ring ring in
      if (4 <=? length ring)%nat then Some ring else None
  | _ => None
  end.

(** Shapely's [mapping(polygon)] of such a polygon: nested tuples of
    floats. *)
Definition ring_mapping (ring : list (float * float)) : pyval :=
  PDict (<["type" := PStr "Polygon"]>
         (<["coordinates" :=
              PTuple [PTuple ((fun p => PTuple [PFloat (fst p); PFloat (snd p)])
                                <$> ring)]]> ∅)).

(** Decoders and a set order for the runs that consult neither. *)
Definition no_decoder (s : string) : option pyval := None.
Definition insertion_order (members : list pyval) : list pyval := members.

(** [ast.literal_eval] on the one text below, a Python literal that
    [json.loads] rejects (single quotes); every other string is taken as
    rejected. *)
Definition square_text : string :=
  "{'coordinates': [[[0, 0], [0, 1], [1, 1], [1, 0], [0, 0]]]}".

(** A ring, a context with the six required keys only, and a dataset
    template. *)
Definition unit_square : list pyval :=
  [PList [PInt 0; PInt 0]; PList [PInt 0; PInt 1]; PList [PInt 1; PInt 1];
   PList [PInt 1; PInt 0]; PList [PInt 0; PInt 0]].

Definition minimal_context : pydict :=
  list_to_map
    [("type", PStr "Wildfire"); ("name", PStr "AOI_Flood Zone");
     ("account", PStr "ops");
     ("geojson_polygon", PDict {[ "coordinates" := PList [PList unit_square] ]});
     ("starttime", PStr "2021-03-01 10:00");
     ("endtime", PStr "2021-04-01T10:00:00+05:00")].

Definition template_ds : pydict :=
  {[ "emails" := PList [PStr "ops@x.com"; PStr "b@x.com"] ]}.

Definition literal_eval_square (s : string) : option pyval :=
  if String.eqb s square_text
  then Some (PDict {[ "coordinates" := PList [PList unit_square] ]})
  else None.

(** ** The pipeline *)

Section Pipeline.

(** The text the C library's [strftime] gives for [%Y]: the four digits of
    a year from 1000 to 9999, on every platform. *)
Variable year_digits : Z -> string.
Hypothesis year_digits_four :
  forall y, 1000 <= y <= 9999 -> year_digits y = four_digits y.
(** [dateutil.parser.parse] on a string: the date-time, or [None] where it
    raises. *)
Variable dateutil_parse : string -> option datetime.
(** [json.loads] and [ast.literal_eval] on a string: the value, or [None]
    where they raise. *)
Variables json_loads ast_literal_eval : string -> option pyval.
(** Shapely's polygons: [Polygon(shell)] is [None] where it raises. *)
Variable geometry : Type.
Variable Polygon : pyval -> option geometry.
Variable mapping : geometry -> pyval.
(** The order in which [list(s)] lists the members of a set [s]. *)
Variable set_iter : list pyval -> list pyval.
Hypothesis set_iter_perm : forall members, Permutation (set_iter members) members.

Set Default Proof Using "Type".

(** [dateutil.parser.parse(v)]: a value that is no string raises
    [TypeError] before any parsing. *)
Definition parse (v : pyval) : option datetime :=
  match v with
  | PStr s => dateutil_parse s
  | _ => None
  end.

(** [json.loads(s)], and [ast.literal_eval(s)] where that raises. *)
Definition loads_or_literal_eval (s : string) : option pyval :=
  match json_loads s with
  | Some v => Some v
  | None => ast_literal_eval s
  end.

Definition validate_time (input_time_string : pyval) : result string :=
  outtime ← try_or_raise (parse input_time_string)
    "unable to parse input time: {0}" input_time_string;
  mret (strftime year_digits outtime "%Y-%m-%dT%H:%M:%SZ").

(** [v == ''] *)
Definition is_empty_str (v : pyval) : bool :=
  match v with
  | PStr EmptyString => true
  | _ => false
  end.

Definition validate_event_time (input_time_string : pyval)
  : result (option string) :=
  if is_empty_str input_time_string then mret None
  else
    outtime ← try_or_raise (parse input_time_string)
      "unable to parse input time: {0}" input_time_string;
    mret (Some (strftime year_digits outtime "%Y-%m-%dT%H:%M:%SZ")).

(** [v[0]]: the first element of a list or tuple, the first character of a
    string (its first byte and the continuation bytes that follow it);
    [None] where the indexing raises. *)
Definition index0 (v : pyval) : option pyval :=
  match v with
  | PList (x :: _) | PTuple (x :: _) => Some x
  | PStr (String c r) => Some (PStr (String c (Str.continuation r)))
  | _ => None
  end.

Definition validate_geojson (input_geojson : pyval) : result pyval :=
  input_geojson ←
    match input_geojson with
    | PStr s =>
        try_or_raise (loads_or_literal_eval s)
          "unable to parse input geojson string: {0}" input_geojson
    | _ => mret input_geojson
    end;
  try_or_raise
    (keys ← match input_geojson with PDict d => Some d | _ => None end;
     if has_key keys "coordinates" then
       coordinates ← keys !! "coordinates";
       shell ← index0 coordinates;
       polygon ← Polygon shell;
       Some (mapping polygon)
     else
       polygon ← Polygon input_geojson;
       Some (mapping polygon))
    "unable to parse geojson: {0}" input_geojson.

(** State: the dictionary [ds]. *)
Definition build_aoi_ds (context : pydict) : M unit :=
  aoi_type ← lift (getitem context "type" ≫= validate_type);
  label ← lift (name ← getitem context "name"; generate_label name aoi_type);
  project ← lift (getitem context "account");
  polygon_geojson ← lift (getitem context "geojson_polygon" ≫= validate_geojson);
  starttime ← lift (getitem context "starttime" ≫= validate_time);
  endtime ← lift (getitem context "endtime" ≫= validate_time);
  (* [email_list] is bound in the branch of the [if] only *)
  email_list ←
    (if has_key context "emails" then
       email_list ← getitem_state "emails";
       additional_emails ← lift (getitem context "emails" ≫= parse_emails);
       members ← lift (list_add email_list additional_emails ≫= py_set);
       mret (Some (set_iter members))
     else mret None);
  setitem "label" (PStr label);;
  setitem "type" (PStr aoi_type);;
  setitem "account" project;;
  setitem "location" polygon_geojson;;
  setitem "starttime" (PStr starttime);;
  setitem "endtime" (PStr endtime);;
  match email_list with
  | Some email_list => setitem "emails" (PList email_list)
  | None => lift (Raise (UnboundLocalError "email_list"))
  end.

(** [if event_time != None: met['eventtime'] = event_time] *)
Definition set_eventtime (event_time : option string) : M unit :=
  match event_time with
  | Some t => setitem "eventtime" (PStr t)
  | None => mret tt
  end.

(** State: the dictionary [met]. *)
Definition parse_additional_metadata (additional_met : pyval) : M unit :=
  if is_empty_str additional_met || (if additional_met is PNone then true else false)
  then mret tt
  else
    additional_met ← lift
      match additional_met with
      | PDict _ => mret additional_met
      | PStr s =>
          match loads_or_literal_eval s with
          | Some v => Ok v
          | None => Raise (PyException "additional metadata cannot be parsed" [])
          end
      | _ => Raise (PyException "additional metadata cannot be parsed" [])
      end;
    additional_met ← lift (dict_receiver additional_met);
    (if has_key additional_met "user" then
       lift (getitem additional_met "username") ≫= setitem "username"
     else mret tt);;
    (if has_key additional_met "eventtime" then
       lift (getitem additional_met "eventtime" ≫= validate_event_time)
         ≫= set_eventtime
     else mret tt);;
    (if has_key additional_met "image_url" then
       lift (getitem additional_met "image_url") ≫= setitem "image_url"
     else mret tt);;
    (if has_key additional_met "event_metadata" then
       lift (getitem additional_met "event_metadata") ≫= setitem "event_metadata"
     else mret tt).

(** State: the dictionary [met]. *)
Definition build_aoi_met (context : pydict) : M unit :=
  (if has_key context "username" then
     lift (getitem context "username") ≫= setitem "username"
   else mret tt);;
  (if has_key context "eventtime" then
     lift (getitem context "eventtime" ≫= validate_event_time)
       ≫= set_eventtime
   else mret tt);;
  (if has_key context "image_url" then
     lift (getitem context "image_url") ≫= setitem "image_url"
   else mret tt);;
  (if has_key context "additional_metadata" then
     lift (getitem context "additional_metadata") ≫= parse_additional_metadata
   else mret tt).

(** A string [strftime] gave for a date-time the parser returned; it has the
    shape [YYYY-MM-DDTHH:MM:SSZ] where the year of that date-time has four
    digits. *)
Definition rendered_time (t : string) : Prop :=
  exists (v : pyval) (dt : datetime),
    parse v = Some dt
    /\ t = strftime year_digits dt "%Y-%m-%dT%H:%M:%SZ"
    /\ (four_digit_year dt -> iso_z_shape t = true).

(** A dictionary whose [eventtime], if it has one, is such a string. *)
Definition eventtime_rendered (d : pydict) : Prop :=
  match d !! "eventtime" with
  | Some v => exists t, v = PStr t /\ rendered_time t
  | None => True
  end.

(** ** Properties of the string operations *)

(** Clears what the goal does not mention. *)
Ltac pure := repeat match goal with H : _ |- _ => clear H end.

Lemma sub_runs_empty cls b s :
  Str.sub_runs cls "" b s = Str.filter (fun c => negb (cls c)) s.
Proof.
  revert b; induction s as [|c r IH]; intros b; simpl; [done|].
  destruct (cls c); simpl; [destruct b|]; by rewrite IH.
Qed.

Lemma filter_all keep s : Str.all keep (Str.filter keep s) = true.
Proof.
  induction s as [|c r IH]; simpl; [done|].
  destruct (keep c) eqn:E; simpl; [by rewrite E|done].
Qed.

Lemma filter_id keep s : Str.all keep s = true -> Str.filter keep s = s.
Proof.
  induction s as [|c r IH]; simpl; [done|].
  intros [-> Hr]%andb_prop. by rewrite IH.
Qed.

Lemma replace_absent old new s :
  Str.all (fun c => negb (Ascii.eqb c old)) s = true ->
  Str.replace old new s = s.
Proof.
  induction s as [|c r IH]; simpl; [done|].
  intros [Hc Hr]%andb_prop. apply negb_true_iff in Hc. by rewrite Hc, IH.
Qed.

Lemma all_impl (p q : ascii -> bool) s :
  (forall c, p c = true -> q c = true) ->
  Str.all p s = true -> Str.all q s = true.
Proof.
  intros Hpq. induction s as [|c r IH]; simpl; [done|].
  intros [Hc Hr]%andb_prop. by rewrite (Hpq _ Hc), IH.
Qed.

Lemma word_char_not_space c : word_char c = true -> negb (Ascii.eqb c " ") = true.
Proof.
  destruct (Ascii.eqb_spec c " ") as [->|]; [|done]. by vm_compute.
Qed.

Lemma sanitize_filter s :
  sanitize s = Str.filter word_char (Str.replace " " "_" s).
Proof.
  unfold sanitize, Str.re_sub. rewrite sub_runs_empty.
  induction (Str.replace " " "_" s) as [|c r IH]; simpl; [done|].
  unfold non_word_char at 1. rewrite negb_involutive.
  destruct (word_char c); by rewrite IH.
Qed.

Lemma sanitize_word_chars s : Str.all word_char (sanitize s) = true.
Proof. rewrite sanitize_filter. apply filter_all. Qed.

Lemma sanitize_fixpoint s : Str.all word_char s = true -> sanitize s = s.
Proof.
  intros H. rewrite sanitize_filter, replace_absent.
  - by apply filter_id.
  - eapply all_impl; [apply word_char_not_space|done].
Qed.

(** C9: the sanitiser [validate_type] is idempotent, and its output holds
    only ASCII letters, digits and underscores. *)
Theorem validate_type_idempotent (s : string) :
  exists t : string,
    validate_type (PStr s) = Ok t
    /\ validate_type (PStr t) = Ok t
    /\ Str.all word_char t = true.
Proof.
  exists (sanitize s). cbn. split; [done|]. split.
  - f_equal. apply sanitize_fixpoint, sanitize_word_chars.
  - apply sanitize_word_chars.
Qed.

(** ** The e-mail list parser *)

Lemma replace_space_filter s : Str.replace " " "" s = remove_spaces s.
Proof.
  unfold remove_spaces. induction s as [|c r IH]; simpl; [done|].
  destruct (Ascii.eqb c " "); simpl; by rewrite IH.
Qed.

Lemma validate_emails_strings (items : list string) :
  validate_emails (PStr <$> items) = Ok (PStr <$> (remove_spaces <$> items)).
Proof.
  induction items as [|s r IH]; [done|].
  cbn [fmap list_fmap validate_emails validate_email str_receiver].
  cbn. cbn in IH. rewrite IH. cbn. by rewrite replace_space_filter.
Qed.

Lemma split_nonempty sep s : Str.split sep s <> [].
Proof.
  destruct s as [|c r]; simpl; [done|].
  destruct (Ascii.eqb c sep); [done|]. by destruct (Str.split sep r).
Qed.

Lemma join_push sep c p ps :
  Str.join sep (String c p :: ps) = String c (Str.join sep (p :: ps)).
Proof. by destruct ps. Qed.

Lemma split_join sep s : Str.join sep (Str.split sep s) = s.
Proof.
  induction s as [|c r IH]; simpl; [done|].
  pose proof (split_nonempty sep r) as Hn.
  destruct (Ascii.eqb_spec c sep) as [->|Hne].
  - destruct (Str.split sep r) as [|p ps]; [done|]. simpl. by rewrite <- IH.
  - destruct (Str.split sep r) as [|p ps]; [done|].
    by rewrite join_push, IH.
Qed.

Lemma split_pieces_without_sep sep s :
  Forall (fun piece => Str.mem sep piece = false) (Str.split sep s).
Proof.
  induction s as [|c r IH]; simpl; [by repeat constructor|].
  destruct (Ascii.eqb_spec c sep) as [->|Hne].
  - by constructor.
  - destruct (Str.split sep r) as [|p ps]; [|inversion IH as [|? ? Hp Hps]; subst].
    + constructor; [|done]. simpl.
      destruct (Ascii.eqb_spec sep c); [congruence|done].
    + constructor; [|done]. simpl.
      destruct (Ascii.eqb_spec sep c); [congruence|done].
Qed.

(** C8: on a list of strings [parse_emails] returns the elements, each with
    its spaces removed, in the order of the list; on a string it returns the
    pieces between the commas, each with its spaces removed, in their order;
    it removes no duplicate. *)
Theorem parse_emails_keeps_order_and_duplicates :
  (forall items : list string,
     parse_emails (PList (PStr <$> items))
     = Ok (PStr <$> (remove_spaces <$> items)))
  /\ (forall s : string,
     parse_emails (PStr s)
     = Ok (PStr <$> (remove_spaces <$> Str.split "," s))
     /\ Str.join "," (Str.split "," s) = s
     /\ Forall (fun piece => Str.mem "," piece = false) (Str.split "," s))
  /\ parse_emails (PStr "a@x.com, b@x.com") = Ok [PStr "a@x.com"; PStr "b@x.com"]
  /\ parse_emails (PStr "a@x.com,a@x.com") = Ok [PStr "a@x.com"; PStr "a@x.com"].
Proof.
  split; [|split; [|split]].
  - intros items. apply validate_emails_strings.
  - intros s. split; [|split].
    + cbn. apply validate_emails_strings.
    + apply split_join.
    + apply split_pieces_without_sep.
  - reflexivity.
  - reflexivity.
Qed.

(** ** The label *)

(** The label of the specification's example carries one [AOI_] only. *)
Lemma generate_label_flood_zone :
  generate_label (PStr "AOI_Flood Zone") "Wildfire" = Ok "AOI_Wildfire_Flood_Zone".
Proof. reflexivity. Qed.

(** C2: [generate_label] takes more than the literal prefix [AOI_] off the
    name [AOI_Island]: [lstrip] drops every leading character of the set
    [{A, O, I, _}], the [I] of [Island] too, where the literal removal keeps
    [Island]. *)
Theorem generate_label_strips_character_set :
  generate_label (PStr "AOI_Island") "Wildfire" = Ok "AOI_Wildfire_sland"
  /\ generate_label_literal "AOI_Island" "Wildfire" = "AOI_Wildfire_Island".
Proof. split; reflexivity. Qed.

Lemma startswith_drop s p :
  Str.startswith s p = true -> s = p +:+ Str.drop (String.length p) s.
Proof.
  revert s; induction p as [|a p IH]; intros s; [done|].
  destruct s as [|b s]; [done|]. simpl.
  intros [->%Ascii.eqb_eq Hs]%andb_prop.
  change (String b s = String b (p +:+ Str.drop (String.length p) s)).
  f_equal. by apply IH.
Qed.

(** The literal removal and [lstrip] agree on a name that does not start
    with [AOI_], and on one whose remainder after [AOI_] starts with no
    character of [{A, O, I, _}]. *)
Lemma generate_label_literal_agree (label aoi_type : string) :
  Str.startswith (sanitize label) "AOI_" = false
  \/ Str.lstrip "AOI_" (Str.drop 4 (sanitize label)) = Str.drop 4 (sanitize label) ->
  generate_label (PStr label) aoi_type = Ok (generate_label_literal label aoi_type).
Proof.
  unfold generate_label, generate_label_literal, remove_literal_prefix.
  cbn -[Str.drop Str.lstrip Str.startswith String.length sanitize].
  generalize (sanitize label) as s. intros s Hs.
  destruct (Str.startswith s "AOI_") eqn:E; [|done].
  destruct Hs as [|H]; [done|]. do 4 f_equal.
  apply startswith_drop in E. rewrite E at 1. exact H.
Qed.

(** ** The time validators *)

Lemma days_from_civil_from_days z :
  let '(y, m, d) := civil_from_days z in days_from_civil y m d = z.
Proof.
  pure. unfold civil_from_days, days_from_civil. cbv zeta.
  set (z' := z + 719468).
  set (era := z' / 146097).
  set (doe := z' - era * 146097).
  assert (0 <= doe < 146097) by (subst doe era; Z.div_mod_to_equations; lia).
  set (yoe := (doe - doe / 1460 + doe / 36524 - doe / 146096) / 365).
  assert (0 <= yoe <= 399) by (subst yoe; Z.div_mod_to_equations; lia).
  set (doy := doe - (365 * yoe + yoe / 4 - yoe / 100)).
  assert (0 <= doy <= 365) by (subst doy yoe; Z.div_mod_to_equations; lia).
  set (mp := (5 * doy + 2) / 153).
  assert (0 <= mp <= 11) by (subst mp; Z.div_mod_to_equations; lia).
  assert ((yoe + era * 400) / 400 = era) as Hera
    by (Z.div_mod_to_equations; lia).
  assert ((153 * mp + 2) / 5 + (doy - (153 * mp + 2) / 5 + 1) - 1 = doy)
    as Hdoy by lia.
  destruct (mp <? 10) eqn:E.
  - apply Z.ltb_lt in E.
    assert ((mp + 3 <=? 2) = false) as -> by lia.
    assert ((2 <? mp + 3) = true) as -> by lia.
    replace (mp + 3 - 3) with mp by lia. rewrite Hera.
    replace (yoe + era * 400 - era * 400) with yoe by lia. rewrite Hdoy.
    subst doy doe z'. lia.
  - apply Z.ltb_ge in E.
    assert ((mp - 9 <=? 2) = true) as -> by lia.
    assert ((2 <? mp - 9) = false) as -> by lia.
    replace (mp - 9 + 9) with mp by lia.
    replace (yoe + era * 400 + 1 - 1) with (yoe + era * 400) by lia.
    rewrite Hera.
    replace (yoe + era * 400 - era * 400) with yoe by lia. rewrite Hdoy.
    subst doy doe z'. lia.
Qed.

(** [astimezone_utc] keeps the instant, which makes [utc_rendering] the
    rendering of the same instant in UTC. *)
Lemma astimezone_utc_instant dt : instant (astimezone_utc dt) = instant dt.
Proof.
  pure. unfold astimezone_utc. destruct (utcoffset dt) as [off|] eqn:Eoff; [|done].
  set (t := instant dt).
  pose proof (days_from_civil_from_days (t / 86400)) as Hd.
  destruct (civil_from_days (t / 86400)) as [[y m] d].
  unfold instant at 1. cbn [year month day hour minute second utcoffset default].
  rewrite Hd. clearbody t. unfold id. Z.div_mod_to_equations. lia.
Qed.

Lemma digit_is_digit n : is_digit (digit n) = true.
Proof.
  unfold digit. pose proof (Z.mod_pos_bound n 10 eq_refl) as Hb.
  assert (Hk : (Z.to_nat (n mod 10) < 10)%nat) by lia.
  revert Hk. generalize (Z.to_nat (n mod 10)) as k. intros k Hk.
  do 10 (destruct k as [|k]; [reflexivity|]). lia.
Qed.

Lemma strftime_fields dt :
  strftime year_digits dt "%Y-%m-%dT%H:%M:%SZ"
  = year_digits (year dt) +:+ "-" +:+ zero_pad2 (month dt) +:+ "-"
    +:+ zero_pad2 (day dt) +:+ "T" +:+ zero_pad2 (hour dt) +:+ ":"
    +:+ zero_pad2 (minute dt) +:+ ":" +:+ zero_pad2 (second dt) +:+ "Z".
Proof. reflexivity. Qed.

Lemma strftime_shape dt :
  four_digit_year dt ->
  iso_z_shape (strftime year_digits dt "%Y-%m-%dT%H:%M:%SZ") = true.
Proof using Type year_digits_four.
  intros Hy. rewrite strftime_fields, (year_digits_four _ Hy).
  cbv [iso_z_shape four_digits zero_pad2 String.append String.list_ascii_of_string].
  cbn -[digit is_digit]. by rewrite !digit_is_digit.
Qed.

(** C3, as the script has it: [validate_time] formats the fields of the
    date-time the parser returned with [%Y-%m-%dT%H:%M:%SZ], the year as the
    C library's [%Y] gives it, and applies no UTC offset to them; the string
    has the shape [YYYY-MM-DDTHH:MM:SSZ] where the parsed year has four
    digits; on a string the parser rejects it raises. *)
Theorem validate_time_formats_parsed_fields (s : string) :
  match dateutil_parse s with
  | Some dt =>
      validate_time (PStr s)
      = Ok (year_digits (year dt) +:+ "-" +:+ zero_pad2 (month dt) +:+ "-"
            +:+ zero_pad2 (day dt) +:+ "T" +:+ zero_pad2 (hour dt) +:+ ":"
            +:+ zero_pad2 (minute dt) +:+ ":" +:+ zero_pad2 (second dt) +:+ "Z")
      /\ (four_digit_year dt ->
          exists out, validate_time (PStr s) = Ok out /\ iso_z_shape out = true)
  | None =>
      validate_time (PStr s)
      = Raise (PyException "unable to parse input time: {0}" [PStr s])
  end.
Proof using Type year_digits_four.
  unfold validate_time. cbn [parse].
  destruct (dateutil_parse s) as [dt|]; [|done]. cbn -[strftime]. split.
  - by rewrite strftime_fields.
  - intros Hy. eexists. split; [done|]. by apply strftime_shape.
Qed.

Lemma is_empty_str_false v : v <> PStr "" -> is_empty_str v = false.
Proof. destruct v as [| | | |[|]| | |]; done. Qed.

(** C5, as the script has it: [validate_event_time] returns [None] on the
    empty string only; on [None] it raises; on every other value it does
    what [validate_time] does. *)
Theorem validate_event_time_empty_string_only :
  validate_event_time (PStr "") = Ok None
  /\ validate_event_time PNone
     = Raise (PyException "unable to parse input time: {0}" [PNone])
  /\ (forall v : pyval, v <> PStr "" ->
      validate_event_time v = Some <$> validate_time v).
Proof.
  split; [done|]. split; [done|]. intros v Hv.
  unfold validate_event_time, validate_time. rewrite (is_empty_str_false v Hv).
  by destruct (parse v).
Qed.

(** ** The geometry normaliser and the additional metadata *)

(** Unfolds the binds of [M] and [result] down to the library calls. *)
Ltac run :=
  unfold mbind, mret, M_bind, M_ret, result_bind, result_ret, lift, setitem,
    getitem_state, set_eventtime;
  cbn -[has_key].

Lemma has_key_singleton k (v : pyval) k' :
  has_key {[ k := v ]} k' = bool_decide (k = k').
Proof.
  unfold has_key. destruct (decide (k = k')) as [->|Hne].
  - rewrite lookup_singleton_eq, !bool_decide_eq_true_2; eauto.
  - rewrite lookup_singleton_ne, !bool_decide_eq_false_2; auto.
Qed.

(** C7: on a bare list of points [validate_geojson] raises, whatever the
    list: the test for the key [coordinates] calls [.keys()], which a list
    does not have, inside the [try].  The same ring under the key
    [coordinates] of a dictionary reaches [Polygon]. *)
Theorem validate_geojson_rejects_bare_ring (R : list pyval) :
  validate_geojson (PList R)
  = Raise (PyException "unable to parse geojson: {0}" [PList R])
  /\ validate_geojson (PDict {[ "coordinates" := PList [PList R] ]})
     = match Polygon (PList R) with
       | Some polygon => Ok (mapping polygon)
       | None =>
           Raise (PyException "unable to parse geojson: {0}"
                    [PDict {[ "coordinates" := PList [PList R] ]}])
       end.
Proof.
  split; [reflexivity|].
  unfold validate_geojson. cbn -[has_key].
  rewrite has_key_singleton, lookup_singleton_eq. cbn.
  by destruct (Polygon (PList R)).
Qed.

(** C4: [parse_additional_metadata] tests the key [user] and reads the key
    [username]: additional metadata that holds [username] alone leaves [met]
    as it was, and additional metadata that holds [user] alone raises
    [KeyError]. *)
Theorem parse_additional_metadata_tests_user_key (v : pyval) (met : pydict) :
  parse_additional_metadata (PDict {[ "username" := v ]}) met = (Ok tt, met)
  /\ parse_additional_metadata (PDict {[ "user" := v ]}) met
     = (Raise (KeyError "username"), met).
Proof.
  unfold parse_additional_metadata. split.
  - run. by rewrite !has_key_singleton.
  - run. rewrite !has_key_singleton. cbn.
    unfold getitem. by rewrite lookup_singleton_ne.
Qed.

Lemma assigns_only_ret {A} keys (a : A) : assigns_only keys (mret a).
Proof. by intros d k _. Qed.

Lemma assigns_only_lift {A} keys (r : result A) : assigns_only keys (lift r).
Proof. by intros d k _. Qed.

Lemma assigns_only_setitem keys k0 v : k0 ∈ keys -> assigns_only keys (setitem k0 v).
Proof.
  intros Hin d k Hk. unfold setitem. cbn.
  apply lookup_insert_ne. intros ->. by apply Hk.
Qed.

Lemma assigns_only_bind {A B} keys (m : M A) (f : A -> M B) :
  assigns_only keys m -> (forall a, assigns_only keys (f a)) ->
  assigns_only keys (m ≫= f).
Proof.
  intros Hm Hf d k Hk. unfold mbind, M_bind.
  specialize (Hm d k Hk). destruct (m d) as [[a|e] d']; cbn in *; [|done].
  by rewrite Hf.
Qed.

(** Membership in a list of keys given by its elements. *)
Ltac in_keys :=
  unfold additional_metadata_keys;
  repeat (apply elem_of_cons; first [left; reflexivity | right]).

Lemma assigns_only_set_eventtime event_time :
  assigns_only additional_metadata_keys (set_eventtime event_time).
Proof.
  destruct event_time; [apply assigns_only_setitem|apply assigns_only_ret].
  in_keys.
Qed.

(** Closes a goal [assigns_only additional_metadata_keys m] for a
    computation [m] made of binds, calls lifted from [result], conditionals
    on [has_key] and assignments to the four keys. *)
Ltac frame :=
  repeat first
    [ apply assigns_only_ret
    | apply assigns_only_lift
    | apply assigns_only_set_eventtime
    | apply assigns_only_setitem; in_keys
    | apply assigns_only_bind; [|intros ?]
    | match goal with |- assigns_only _ (if ?b then _ else _) => destruct b end ].

Lemma parse_additional_metadata_assigns_only additional_met :
  assigns_only additional_metadata_keys (parse_additional_metadata additional_met).
Proof. unfold parse_additional_metadata. frame. Qed.

Lemma build_aoi_met_assigns_only context :
  assigns_only additional_metadata_keys (build_aoi_met context).
Proof.
  unfold build_aoi_met. frame. apply parse_additional_metadata_assigns_only.
Qed.

(** C10: whatever the additional metadata and whatever the outcome,
    [parse_additional_metadata] leaves every key of [met] other than
    [username], [eventtime], [image_url] and [event_metadata] with the value
    it had; on the empty string and on [None] it returns [met] as it was. *)
Theorem parse_additional_metadata_frame
  (additional_met : pyval) (met : pydict) (k : string) :
  k ∉ additional_metadata_keys ->
  (parse_additional_metadata additional_met met).2 !! k = met !! k
  /\ parse_additional_metadata (PStr "") met = (Ok tt, met)
  /\ parse_additional_metadata PNone met = (Ok tt, met).
Proof.
  intros Hk. split; [|done].
  by apply parse_additional_metadata_assigns_only.
Qed.

(** ** The dataset record *)

Lemma has_key_false (d : pydict) k : d !! k = None -> has_key d k = false.
Proof.
  intros H. unfold has_key. rewrite H. apply bool_decide_eq_false_2.
  by intros [? ?].
Qed.

Lemma has_key_true (d : pydict) k v : d !! k = Some v -> has_key d k = true.
Proof.
  intros H. unfold has_key. rewrite H. apply bool_decide_eq_true_2. eauto.
Qed.

(** Cases on the outcome of the next call of a computation unfolded by
    [run]. *)
Ltac next_call :=
  match goal with
  | |- context [match ?r with Ok _ => _ | Raise _ => _ end] =>
      lazymatch r with
      | context [match _ with Ok _ => _ | Raise _ => _ end] => fail
      | _ => destruct r eqn:?
      end
  end.

(** C1: on a context without the key [emails], [build_aoi_ds] never
    returns: where no validator raises, the assignment of [email_list],
    bound under [if 'emails' in context.keys()] only, raises. *)
Theorem build_aoi_ds_without_emails_raises (context ds : pydict) :
  context !! "emails" = None ->
  exists e ds', build_aoi_ds context ds = (Raise e, ds').
Proof.
  intros H. unfold build_aoi_ds. rewrite (has_key_false _ _ H). run.
  repeat (next_call; [|by eauto]). by eauto.
Qed.

Lemma bind_lift_ok {A B} (a : A) (f : A -> M B) : lift (Ok a) ≫= f = f a.
Proof. reflexivity. Qed.

(** Where no validator raises, what is raised is [UnboundLocalError], after
    the six other fields were assigned. *)
Lemma build_aoi_ds_without_emails_unbound (context ds : pydict)
  (aoi_type label starttime endtime : string) (project location : pyval) :
  context !! "emails" = None ->
  getitem context "type" ≫= validate_type = Ok aoi_type ->
  (name ← getitem context "name"; generate_label name aoi_type) = Ok label ->
  getitem context "account" = Ok project ->
  getitem context "geojson_polygon" ≫= validate_geojson = Ok location ->
  getitem context "starttime" ≫= validate_time = Ok starttime ->
  getitem context "endtime" ≫= validate_time = Ok endtime ->
  build_aoi_ds context ds
  = (Raise (UnboundLocalError "email_list"),
     <["endtime" := PStr endtime]> (<["starttime" := PStr starttime]>
     (<["location" := location]> (<["account" := project]>
     (<["type" := PStr aoi_type]> (<["label" := PStr label]> ds)))))).
Proof.
  intros H H1 H2 H3 H4 H5 H6. unfold build_aoi_ds.
  rewrite (has_key_false _ _ H).
  rewrite H1, bind_lift_ok, H2, bind_lift_ok, H3, bind_lift_ok.
  rewrite H4, bind_lift_ok, H5, bind_lift_ok, H6, bind_lift_ok.
  reflexivity.
Qed.

Lemma py_eqb_str a b :
  is_str a = true -> is_str b = true -> py_eqb a b = true <-> a = b.
Proof.
  destruct a, b; try done. intros _ _. cbn. rewrite String.eqb_eq.
  split; congruence.
Qed.

Lemma existsb_py_eqb x members :
  is_str x = true -> Forall (fun v => is_str v = true) members ->
  existsb (py_eqb x) members = true <-> x ∈ members.
Proof.
  intros Hx Hm. rewrite existsb_exists. split.
  - intros (y & Hy%list_elem_of_In & E).
    rewrite Forall_forall in Hm. apply py_eqb_str in E; [by subst|done|].
    by apply Hm.
  - intros Hin. exists x. split; [by apply list_elem_of_In|].
    by apply py_eqb_str.
Qed.

Lemma set_insert_strs members x :
  is_str x = true -> Forall (fun v => is_str v = true) members ->
  NoDup members ->
  Forall (fun v => is_str v = true) (set_insert members x)
  /\ NoDup (set_insert members x)
  /\ (forall y, y ∈ set_insert members x <-> y ∈ members \/ y = x).
Proof.
  intros Hx Hm Hnd. unfold set_insert.
  pose proof (existsb_py_eqb x members Hx Hm) as Hex.
  destruct (existsb (py_eqb x) members).
  - split; [done|]. split; [done|]. intros y. split; [by left|].
    intros [ | -> ]; [done|]. by apply Hex.
  - assert (x ∉ members) as Hnot.
    { intros Hin. apply Hex in Hin. done. }
    split; [|split].
    + apply Forall_app. split; [done|]. by constructor.
    + apply NoDup_app. split; [done|]. split; [|apply NoDup_singleton].
      intros y Hy ->%list_elem_of_singleton. done.
    + intros y. rewrite elem_of_app, list_elem_of_singleton. done.
Qed.

Lemma fold_set_insert_strs l : forall members,
  Forall (fun v => is_str v = true) l ->
  Forall (fun v => is_str v = true) members ->
  NoDup members ->
  NoDup (fold_left set_insert l members)
  /\ (forall y, y ∈ fold_left set_insert l members <-> y ∈ members \/ y ∈ l).
Proof.
  pure. induction l as [|x l IH]; intros members Hl Hm Hnd; cbn.
  - split; [done|]. intros y. rewrite elem_of_nil. tauto.
  - inversion Hl as [|? ? Hx Hl']; subst.
    destruct (set_insert_strs members x Hx Hm Hnd) as (Hs & Hn & Hin).
    destruct (IH _ Hl' Hs Hn) as (Hn' & Hin'). split; [done|].
    intros y. rewrite Hin', Hin, elem_of_cons. tauto.
Qed.

Lemma validate_emails_strs items : forall out,
  validate_emails items = Ok out -> Forall (fun v => is_str v = true) out.
Proof.
  induction items as [|item rest IH]; intros out; cbn.
  - intros [= <-]. constructor.
  - unfold validate_email at 1, str_receiver.
    destruct item; try done. cbn.
    destruct (validate_emails rest) as [es|]; [|done]. cbn.
    intros [= <-]. constructor; [done|]. by apply IH.
Qed.

Lemma parse_emails_strs emails out :
  parse_emails emails = Ok out -> Forall (fun v => is_str v = true) out.
Proof.
  destruct emails; try done; cbn; apply validate_emails_strs.
Qed.

(** The outcome [Ok] of [build_aoi_ds], read backwards: the context holds
    [emails], and the list assigned to the key [emails] lists the set of the
    template's list extended by the parsed e-mails. *)
Lemma build_aoi_ds_ok_emails (context ds ds' : pydict) :
  build_aoi_ds context ds = (Ok tt, ds') ->
  exists template additional members,
    ds !! "emails" = Some (PList template)
    /\ getitem context "emails" ≫= parse_emails = Ok additional
    /\ py_set (template ++ additional) = Ok members
    /\ ds' !! "emails" = Some (PList (set_iter members)).
Proof.
  unfold build_aoi_ds.
  destruct (has_key context "emails"); run.
  - repeat (next_call; [|done]).
    unfold getitem in *. destruct (ds !! "emails") as [email_list|]; [|done].
    repeat (next_call; [|done]).
    repeat match goal with H : Ok _ = Ok _ |- _ => injection H as <- end.
    destruct email_list; try (cbn in *; discriminate). cbn in *.
    repeat match goal with H : Ok _ = Ok _ |- _ => injection H as <- end.
    intros [= <-]. eexists _, _, _. split; [done|]. split; [done|]. split; [done|].
    by rewrite lookup_insert_eq.
  - repeat (next_call; [|done]). done.
Qed.

(** C6: where the context holds the key [emails] and the template's
    [emails] is a list of strings, the [emails] of the record
    [build_aoi_ds] produces is a list without duplicates whose elements are
    those of the template's list and the e-mails parsed from the context. *)
Theorem build_aoi_ds_emails_union
  (context ds ds' : pydict) (emails : pyval) (template : list pyval) :
  context !! "emails" = Some emails ->
  ds !! "emails" = Some (PList template) ->
  Forall (fun v => is_str v = true) template ->
  build_aoi_ds context ds = (Ok tt, ds') ->
  exists parsed out,
    parse_emails emails = Ok parsed
    /\ ds' !! "emails" = Some (PList out)
    /\ NoDup out
    /\ (forall x, x ∈ out <-> x ∈ template \/ x ∈ parsed).
Proof using Type set_iter_perm.
  intros Hc Hd Ht Hb.
  apply build_aoi_ds_ok_emails in Hb
    as (template' & parsed & members & Hd' & Hp & Hs & Hout).
  rewrite Hd in Hd'. injection Hd' as <-.
  unfold getitem in Hp. rewrite Hc in Hp. cbn in Hp.
  unfold py_set in Hs. destruct (forallb hashable _); [|done].
  injection Hs as <-.
  pose proof (parse_emails_strs _ _ Hp) as Hps.
  destruct (fold_set_insert_strs (template ++ parsed) [])
    as (Hnd & Hin); [by apply Forall_app|constructor|constructor|].
  exists parsed, (set_iter (fold_left set_insert (template ++ parsed) [])).
  split; [done|]. split; [done|]. split.
  - by rewrite set_iter_perm.
  - intros x. rewrite set_iter_perm, Hin, elem_of_app, elem_of_nil. tauto.
Qed.

(** ** Further properties of the string functions *)

Lemma append_assoc a b c : (a +:+ b) +:+ c = a +:+ (b +:+ c).
Proof.
  pure. induction a as [|x a IH]; [done|].
  change (String x ((a +:+ b) +:+ c) = String x (a +:+ (b +:+ c))).
  by rewrite IH.
Qed.

Lemma replace_app old new a b :
  Str.replace old new (a +:+ b) = Str.replace old new a +:+ Str.replace old new b.
Proof.
  pure. induction a as [|c r IH]; [done|].
  change (String c r +:+ b) with (String c (r +:+ b)). cbn [Str.replace].
  rewrite IH. destruct (Ascii.eqb c old); [by rewrite append_assoc|done].
Qed.

Lemma filter_app keep a b :
  Str.filter keep (a +:+ b) = Str.filter keep a +:+ Str.filter keep b.
Proof.
  pure. induction a as [|c r IH]; [done|].
  change (String c r +:+ b) with (String c (r +:+ b)). cbn [Str.filter].
  rewrite IH. by destruct (keep c).
Qed.

(** [sanitize] acts character by character, although the pattern matches
    runs: sanitising a concatenation is concatenating the sanitised
    parts. *)
Theorem sanitize_app (a b : string) :
  sanitize (a +:+ b) = sanitize a +:+ sanitize b.
Proof. by rewrite !sanitize_filter, replace_app, filter_app. Qed.

Lemma all_app p a b : Str.all p (a +:+ b) = Str.all p a && Str.all p b.
Proof.
  pure. induction a as [|c r IH]; [done|].
  change (String c r +:+ b) with (String c (r +:+ b)). cbn [Str.all].
  by rewrite IH, andb_assoc.
Qed.

Lemma lstrip_all p chars s :
  Str.all p s = true -> Str.all p (Str.lstrip chars s) = true.
Proof.
  pure. induction s as [|c r IH]; [done|]. cbn [Str.lstrip].
  destruct (Str.mem c chars); [|done].
  intros [_ Hr]%andb_prop. by apply IH.
Qed.

Lemma lstrip_head chars s c r :
  Str.lstrip chars s = String c r -> Str.mem c chars = false.
Proof.
  pure. induction s as [|d t IH]; [done|]. cbn [Str.lstrip].
  destruct (Str.mem d chars) eqn:E; [done|]. by intros [= <- <-].
Qed.

(** The name part of the label. *)
Lemma generate_label_rest (name aoi_type : string) :
  exists rest : string,
    generate_label (PStr name) aoi_type
    = Ok ("AOI_" +:+ aoi_type +:+ "_" +:+ rest)
    /\ rest = (if Str.startswith (sanitize name) "AOI_"
               then Str.lstrip "AOI_" (sanitize name) else sanitize name)
    /\ Str.all word_char rest = true.
Proof.
  pure. eexists. split; [reflexivity|]. split; [done|].
  pose proof (sanitize_word_chars name) as Hw.
  destruct (Str.startswith (sanitize name) "AOI_"); [by apply lstrip_all|done].
Qed.

(** The label is [AOI_], the type as it was given, an underscore and a name
    part; the name part is made of letters, digits and underscores and
    never starts with [AOI_].  (Nothing is said of the type: it is pasted in
    unchanged, so the type [AOI] gives labels that start with
    [AOI_AOI_].) *)
Theorem generate_label_shape (name aoi_type : string) :
  exists rest : string,
    generate_label (PStr name) aoi_type
    = Ok ("AOI_" +:+ aoi_type +:+ "_" +:+ rest)
    /\ Str.all word_char rest = true
    /\ Str.startswith rest "AOI_" = false.
Proof.
  destruct (generate_label_rest name aoi_type) as (rest & Hl & Hr & Hw).
  exists rest. split; [done|]. split; [done|]. subst rest.
  destruct (Str.startswith (sanitize name) "AOI_") eqn:E; [|done].
  destruct (Str.lstrip "AOI_" (sanitize name)) as [|c r] eqn:El; [done|].
  apply lstrip_head in El. cbn [Str.startswith].
  destruct (Ascii.eqb_spec "A" c) as [<-|]; [done|done].
Qed.

(** With the type [validate_type] returned, the whole label is made of
    letters, digits and underscores: it holds no path separator, no dot and
    no space. *)
Theorem generate_label_word_chars
  (aoi_type name : pyval) (sanitized label : string) :
  validate_type aoi_type = Ok sanitized ->
  generate_label name sanitized = Ok label ->
  Str.all word_char label = true.
Proof.
  destruct aoi_type; try done. destruct name; try done.
  intros [= <-] Hl.
  destruct (generate_label_rest s0 (sanitize s)) as (rest & Hr & _ & Hw).
  rewrite Hr in Hl. injection Hl as <-.
  by rewrite !all_app, sanitize_word_chars, Hw.
Qed.

(** ** Further properties of the e-mail list parser *)

Lemma validate_emails_ok_strs items out :
  validate_emails items = Ok out ->
  Forall (fun v => is_str v = true) items.
Proof.
  pure. revert out. induction items as [|item rest IH]; intros out; [done|].
  cbn. destruct item; try done. cbn.
  destruct (validate_emails rest) as [es|] eqn:E; [|done].
  intros _. constructor; [done|]. by eapply IH.
Qed.

Lemma strs_fmap (items : list pyval) :
  Forall (fun v => is_str v = true) items ->
  exists strs : list string, items = PStr <$> strs.
Proof.
  pure. induction 1 as [|v l Hv _ (strs & ->)]; [by exists []|].
  destruct v; try done. by exists (s :: strs).
Qed.

(** [parse_emails] returns exactly on a string and on a list of strings;
    on every other value, and on a list with an element that is no string,
    it raises. *)
Theorem parse_emails_returns_iff (emails : pyval) :
  (exists out, parse_emails emails = Ok out)
  <-> is_str emails = true
      \/ exists items, emails = PList items
                       /\ Forall (fun v => is_str v = true) items.
Proof.
  split.
  - intros (out & H). destruct emails; try done; [by left|right].
    eexists. split; [done|]. by eapply validate_emails_ok_strs.
  - intros [H|(items & -> & H)].
    + destruct emails; try done. eexists. cbn.
      apply validate_emails_strings.
    + apply strs_fmap in H as (strs & ->). eexists.
      apply validate_emails_strings.
Qed.

Lemma split_length sep s :
  length (Str.split sep s) = S (count_char sep s).
Proof.
  pure. induction s as [|c r IH]; [done|]. cbn [Str.split count_char].
  destruct (Ascii.eqb c sep); cbn; [by rewrite IH|].
  pose proof (split_nonempty sep r) as Hn.
  destruct (Str.split sep r); [done|]. by rewrite <- IH.
Qed.

Lemma filter_drops keep c s : keep c = false -> Str.mem c (Str.filter keep s) = false.
Proof.
  pure. intros Hc. induction s as [|d r IH]; [done|]. cbn [Str.filter].
  destruct (keep d) eqn:E; [|done]. cbn [Str.mem]. rewrite IH, orb_false_r.
  destruct (Ascii.eqb_spec c d) as [->|]; [congruence|done].
Qed.

Lemma filter_mem_false keep c s :
  Str.mem c s = false -> Str.mem c (Str.filter keep s) = false.
Proof.
  pure. induction s as [|d r IH]; [done|]. cbn [Str.mem Str.filter].
  intros [Hd Hr]%orb_false_elim. destruct (keep d); [|by apply IH].
  cbn [Str.mem]. by rewrite Hd, IH.
Qed.

Lemma split_filter sep keep s :
  keep sep = true ->
  Str.split sep (Str.filter keep s) = Str.filter keep <$> Str.split sep s.
Proof.
  pure. intros Hk. induction s as [|c r IH]; [done|].
  pose proof (split_nonempty sep r) as Hn.
  cbn [Str.split Str.filter].
  destruct (Ascii.eqb_spec c sep) as [->|Hne].
  - rewrite Hk. cbn [Str.split].
    destruct (Ascii.eqb_spec sep sep); [|congruence]. rewrite IH. reflexivity.
  - destruct (Str.split sep r) as [|p ps] eqn:E; [done|].
    destruct (keep c) eqn:Ec.
    + cbn [Str.split]. destruct (Ascii.eqb_spec c sep); [done|].
      rewrite IH. cbn. by rewrite Ec.
    + rewrite IH. cbn. by rewrite Ec.
Qed.

Lemma split_snoc sep s :
  Str.split sep (s +:+ String sep "") = Str.split sep s ++ [""].
Proof.
  pure. induction s as [|c r IH].
  - change ("" +:+ String sep "") with (String sep ""). cbn [Str.split].
    destruct (Ascii.eqb_spec sep sep); [reflexivity|congruence].
  - change (String c r +:+ String sep "") with (String c (r +:+ String sep "")).
    cbn [Str.split]. rewrite IH.
    pose proof (split_nonempty sep r) as Hn.
    destruct (Ascii.eqb c sep); [reflexivity|].
    destruct (Str.split sep r); [congruence|reflexivity].
Qed.

Lemma remove_spaces_split s :
  remove_spaces <$> Str.split "," s = Str.split "," (remove_spaces s).
Proof. pure. unfold remove_spaces. by rewrite split_filter. Qed.

(** On a string [parse_emails] returns the pieces between the commas of
    the string with its spaces removed: with [n] commas, [n + 1] addresses,
    none of which holds a space or a comma.  The empty string gives one
    empty address, and a string followed by a comma gives the addresses of
    the string followed by an empty one. *)
Theorem parse_emails_string_pieces (s : string) :
  parse_emails (PStr s) = Ok (PStr <$> Str.split "," (remove_spaces s))
  /\ length (Str.split "," (remove_spaces s)) = S (count_char "," s)
  /\ Forall (fun t => Str.mem " " t = false /\ Str.mem "," t = false)
       (Str.split "," (remove_spaces s))
  /\ parse_emails (PStr "") = Ok [PStr ""]
  /\ parse_emails (PStr (s +:+ ","))
     = Ok (PStr <$> (Str.split "," (remove_spaces s) ++ [""])).
Proof.
  assert (forall u, parse_emails (PStr u)
                    = Ok (PStr <$> Str.split "," (remove_spaces u))) as Hp.
  { intros u. rewrite <- remove_spaces_split. cbn. apply validate_emails_strings. }
  split; [apply Hp|]. split; [|split; [|split]].
  - by rewrite <- remove_spaces_split, length_fmap, split_length.
  - rewrite <- remove_spaces_split.
    apply Forall_fmap. eapply Forall_impl; [apply split_pieces_without_sep|].
    intros piece Hpiece. cbn. split.
    + by apply filter_drops.
    + by apply filter_mem_false.
  - reflexivity.
  - rewrite Hp. unfold remove_spaces. rewrite filter_app.
    change (Str.filter _ ",") with ",". by rewrite split_snoc.
Qed.

(** ** Further properties of the geometry normaliser *)

Lemma has_key_lookup (d : pydict) k :
  has_key d k = match d !! k with Some _ => true | None => false end.
Proof.
  pure. destruct (d !! k) eqn:E.
  - by eapply has_key_true.
  - by apply has_key_false.
Qed.

(** The second stage of [validate_geojson], on a value that is no string. *)
Lemma validate_geojson_not_str v :
  is_str v = false ->
  validate_geojson v
  = try_or_raise
      (keys ← match v with PDict d => Some d | _ => None end;
       if has_key keys "coordinates" then
         coordinates ← keys !! "coordinates";
         shell ← index0 coordinates;
         polygon ← Polygon shell;
         Some (mapping polygon)
       else polygon ← Polygon v; Some (mapping polygon))
      "unable to parse geojson: {0}" v.
Proof. by destruct v. Qed.


(** A string is handled as the value it decodes to, where that is no
    string itself; where neither decoder accepts it, [validate_geojson]
    raises. *)
Theorem validate_geojson_decodes (s : string) :
  match loads_or_literal_eval s with
  | Some v => is_str v = false -> validate_geojson (PStr s) = validate_geojson v
  | None =>
      validate_geojson (PStr s)
      = Raise (PyException "unable to parse input geojson string: {0}" [PStr s])
  end.
Proof.
  destruct (loads_or_literal_eval s) as [v|] eqn:E.
  - intros Hv. rewrite (validate_geojson_not_str v Hv).
    unfold validate_geojson. by rewrite E.
  - unfold validate_geojson. by rewrite E.
Qed.

(** Of a dictionary with the key [coordinates], [validate_geojson] reads
    the first element of its value only: further rings and every other key,
    [type] included, change nothing. *)
Theorem validate_geojson_first_ring
  (d : pydict) (coordinates shell : pyval) (polygon : geometry) :
  d !! "coordinates" = Some coordinates ->
  index0 coordinates = Some shell ->
  Polygon shell = Some polygon ->
  validate_geojson (PDict d) = Ok (mapping polygon).
Proof.
  intros Hc Hs Hp. rewrite validate_geojson_not_str by done.
  cbn -[has_key]. rewrite has_key_lookup, Hc. cbn. rewrite Hs. cbn.
  by rewrite Hp.
Qed.

(** A dictionary whose [coordinates] is an empty list, an empty string, or a
    value that cannot be indexed, is rejected, without a call of
    [Polygon]. *)
Theorem validate_geojson_no_first_ring (d : pydict) (coordinates : pyval) :
  d !! "coordinates" = Some coordinates ->
  index0 coordinates = None ->
  validate_geojson (PDict d)
  = Raise (PyException "unable to parse geojson: {0}" [PDict d]).
Proof.
  intros Hc Hs. rewrite validate_geojson_not_str by done.
  cbn -[has_key]. rewrite has_key_lookup, Hc. cbn. by rewrite Hs.
Qed.

(** ** Further properties of the additional metadata *)

Lemma parse_additional_metadata_dict (d : pydict) :
  parse_additional_metadata (PDict d)
  = ((if has_key d "user" then
        lift (getitem d "username") ≫= setitem "username"
      else mret tt);;
     (if has_key d "eventtime" then
        lift (getitem d "eventtime" ≫= validate_event_time) ≫= set_eventtime
      else mret tt);;
     (if has_key d "image_url" then
        lift (getitem d "image_url") ≫= setitem "image_url"
      else mret tt);;
     (if has_key d "event_metadata" then
        lift (getitem d "event_metadata") ≫= setitem "event_metadata"
      else mret tt)).
Proof. reflexivity. Qed.

(** A string is handled as the dictionary it decodes to. *)
Theorem parse_additional_metadata_decodes
  (s : string) (d met : pydict) :
  s <> "" ->
  loads_or_literal_eval s = Some (PDict d) ->
  parse_additional_metadata (PStr s) met
  = parse_additional_metadata (PDict d) met.
Proof.
  intros Hs Hd. unfold parse_additional_metadata at 1.
  rewrite (is_empty_str_false (PStr s)) by congruence.
  cbn [orb]. rewrite Hd. reflexivity.
Qed.

(** Additional metadata that is neither empty, [None], a dictionary, nor a
    string that decodes to a dictionary makes [parse_additional_metadata]
    raise before any assignment: [met] is left as it was. *)
Theorem parse_additional_metadata_rejects (additional_met : pyval) (met : pydict) :
  additional_met <> PStr "" ->
  additional_met <> PNone ->
  (forall d, additional_met <> PDict d) ->
  (forall s d, additional_met = PStr s -> loads_or_literal_eval s <> Some (PDict d)) ->
  exists e, parse_additional_metadata additional_met met = (Raise e, met).
Proof.
  intros He Hn Hd Hs. unfold parse_additional_metadata.
  rewrite (is_empty_str_false _ He).
  destruct additional_met as [| | | |s| | |d]; try done; try (by eexists).
  - cbn [orb]. specialize (Hs s). run.
    destruct (loads_or_literal_eval s) as [v|]; [|by eexists].
    destruct v; try (by eexists). by destruct (Hs d eq_refl).
  - by destruct (Hd d).
Qed.

Lemma bind_ok {A B} (m : M A) (f : A -> M B) d b d' :
  (m ≫= f) d = (Ok b, d') ->
  exists a d1, m d = (Ok a, d1) /\ f a d1 = (Ok b, d').
Proof.
  pure. unfold mbind, M_bind. destruct (m d) as [[a|e] d1]; [eauto|done].
Qed.

(** One step [if k in src.keys(): d[k] = src[k]] that returned. *)
Lemma copy_step_ok (src : pydict) k d d' :
  (if has_key src k then lift (getitem src k) ≫= setitem k else mret tt) d
  = (Ok tt, d') ->
  d' = match src !! k with Some v => <[k := v]> d | None => d end.
Proof.
  pure. rewrite has_key_lookup. unfold getitem.
  destruct (src !! k); run; by intros [= <-].
Qed.

Lemma validate_event_time_Some v t :
  validate_event_time v = Ok (Some t) ->
  exists dt, parse v = Some dt /\ t = strftime year_digits dt "%Y-%m-%dT%H:%M:%SZ".
Proof.
  unfold validate_event_time. destruct (is_empty_str v); [done|].
  destruct (parse v) as [dt|]; [|done]. cbn -[strftime].
  intros [= <-]. by exists dt.
Qed.

Lemma validate_event_time_rendered v t :
  validate_event_time v = Ok (Some t) -> rendered_time t.
Proof using Type year_digits_four.
  intros (dt & Hp & ->)%validate_event_time_Some.
  exists v, dt. split; [done|]. split; [done|]. apply strftime_shape.
Qed.

(** The step that validates and assigns [eventtime], when it returned. *)
Lemma eventtime_step_ok (src : pydict) d d' :
  (if has_key src "eventtime" then
     lift (getitem src "eventtime" ≫= validate_event_time) ≫= set_eventtime
   else mret tt) d = (Ok tt, d') ->
  d' = d \/ exists t, d' = <["eventtime" := PStr t]> d.
Proof.
  destruct (has_key src "eventtime"); [|run; intros [= <-]; by left].
  intros (event_time & d1 & H1 & H2)%bind_ok.
  unfold lift in H1. injection H1 as H1 <-.
  destruct event_time as [t|]; cbn in H2.
  - injection H2 as <-. right. by exists t.
  - injection H2 as <-. by left.
Qed.

(** What [parse_additional_metadata] left in [met] when it returned on a
    dictionary. *)
Lemma parse_additional_metadata_dict_ok (d met met' : pydict) :
  parse_additional_metadata (PDict d) met = (Ok tt, met') ->
  exists d1 d2,
    (d1 = met \/ exists v, d1 = <["username" := v]> met)
    /\ (d2 = d1 \/ exists t, d2 = <["eventtime" := PStr t]> d1)
    /\ met' = match d !! "event_metadata" with
              | Some v => <["event_metadata" := v]>
                            match d !! "image_url" with
                            | Some u => <["image_url" := u]> d2
                            | None => d2
                            end
              | None => match d !! "image_url" with
                        | Some u => <["image_url" := u]> d2
                        | None => d2
                        end
              end.
Proof.
  rewrite parse_additional_metadata_dict.
  intros ([] & d1 & H1 & ([] & d2 & H2 & ([] & d3 & H3 & H4)%bind_ok)%bind_ok)%bind_ok.
  apply eventtime_step_ok in H2. apply copy_step_ok in H3, H4.
  exists d1, d2. split; [|split; [done|]].
  - destruct (has_key d "user"); [|injection H1 as <-; by left].
    apply bind_ok in H1 as (v & d0 & Hv & Hs). injection Hv as _ <-.
    injection Hs as <-. right. by exists v.
  - subst d3 met'. by destruct (d !! "event_metadata"), (d !! "image_url").
Qed.

(** When [parse_additional_metadata] returns on a dictionary, [image_url]
    and [event_metadata] of [met] are those of the additional metadata where
    it holds them (whatever their values: nothing is validated), and those
    [met] had where it does not. *)
Theorem parse_additional_metadata_copies (d met met' : pydict) (k : string) :
  k = "image_url" \/ k = "event_metadata" ->
  parse_additional_metadata (PDict d) met = (Ok tt, met') ->
  met' !! k = match d !! k with Some v => Some v | None => met !! k end.
Proof.
  intros Hk (d1 & d2 & H1 & H2 & ->)%parse_additional_metadata_dict_ok.
  assert (d2 !! k = met !! k) as <-.
  { destruct H2 as [->|(t & ->)], H1 as [->|(v & ->)];
      destruct Hk as [->| ->]; by simplify_map_eq. }
  destruct Hk as [->| ->];
    destruct (d !! "event_metadata"), (d !! "image_url"); by simplify_map_eq.
Qed.

(** ** Properties of the metadata record *)

Lemma preserves_ret {A} P (a : A) : preserves P (mret a).
Proof. by intros d Hd. Qed.

Lemma preserves_bind {A B} P (m : M A) (f : A -> M B) :
  preserves P m -> (forall a, preserves P (f a)) -> preserves P (m ≫= f).
Proof.
  pure. intros Hm Hf d Hd. unfold mbind, M_bind.
  specialize (Hm d Hd). destruct (m d) as [[a|e] d1]; cbn in *; [|done].
  by apply Hf.
Qed.

Lemma preserves_copy_step P (src : pydict) k :
  (forall v d, P d -> P (<[k := v]> d)) ->
  preserves P (if has_key src k then lift (getitem src k) ≫= setitem k
               else mret tt).
Proof.
  pure. intros Hk d Hd. destruct (has_key src k); [|done].
  unfold mbind, M_bind, lift, setitem.
  destruct (getitem src k); cbn; [by apply Hk|done].
Qed.

Lemma eventtime_rendered_insert_other k v d :
  k <> "eventtime" -> eventtime_rendered d ->
  eventtime_rendered (<[k := v]> d).
Proof.
  intros Hk. unfold eventtime_rendered. by rewrite lookup_insert_ne.
Qed.

Lemma eventtime_rendered_insert t d :
  rendered_time t -> eventtime_rendered (<["eventtime" := PStr t]> d).
Proof.
  intros Ht. unfold eventtime_rendered. rewrite lookup_insert_eq. eauto.
Qed.

Lemma preserves_eventtime_step (src : pydict) :
  preserves eventtime_rendered
    (if has_key src "eventtime" then
       lift (getitem src "eventtime" ≫= validate_event_time) ≫= set_eventtime
     else mret tt).
Proof using Type year_digits_four.
  intros d Hd. destruct (has_key src "eventtime"); [|done].
  unfold mbind at 1, M_bind, lift.
  destruct (getitem src "eventtime" ≫= validate_event_time)
    as [[t|]|e] eqn:E; cbn; [|done|done].
  apply eventtime_rendered_insert.
  destruct (getitem src "eventtime") as [v|]; [|done].
  by eapply validate_event_time_rendered.
Qed.

Lemma parse_additional_metadata_preserves additional_met :
  preserves eventtime_rendered (parse_additional_metadata additional_met).
Proof using Type year_digits_four.
  unfold parse_additional_metadata.
  destruct (_ || _); [apply preserves_ret|].
  apply preserves_bind; [by intros d Hd|intros ?].
  apply preserves_bind; [by intros d Hd|intros am].
  apply preserves_bind; [|intros ?].
  { intros d Hd. destruct (has_key am "user"); [|done].
    unfold mbind, M_bind, lift, setitem. destruct (getitem am "username"); cbn; [|done].
    by apply eventtime_rendered_insert_other. }
  apply preserves_bind; [apply preserves_eventtime_step|intros ?].
  apply preserves_bind; [|intros ?];
    apply preserves_copy_step; intros; by apply eventtime_rendered_insert_other.
Qed.

(** [build_aoi_met] assigns [eventtime] nothing but what [strftime] gave
    for a date-time the parser returned, a string of the shape
    [YYYY-MM-DDTHH:MM:SSZ] where that date-time has a year of four digits: a
    [met] whose [eventtime] is absent or such a string stays so, whether
    the call returns or raises, and whether the time comes from the context
    or from the additional metadata. *)
Theorem build_aoi_met_eventtime_rendered (context met : pydict) :
  eventtime_rendered met ->
  eventtime_rendered (build_aoi_met context met).2.
Proof using Type year_digits_four.
  revert met. change (preserves eventtime_rendered (build_aoi_met context)).
  unfold build_aoi_met.
  apply preserves_bind; [|intros ?].
  { apply preserves_copy_step. intros. by apply eventtime_rendered_insert_other. }
  apply preserves_bind; [apply preserves_eventtime_step|intros ?].
  apply preserves_bind; [|intros ?].
  { apply preserves_copy_step. intros. by apply eventtime_rendered_insert_other. }
  destruct (has_key context "additional_metadata"); [|apply preserves_ret].
  apply preserves_bind; [by intros d Hd|intros ?].
  apply parse_additional_metadata_preserves.
Qed.

(** Whatever the context and whatever the outcome, [build_aoi_met] leaves
    every key of [met] other than [username], [eventtime], [image_url] and
    [event_metadata] with the value it had. *)
Theorem build_aoi_met_frame (context met : pydict) (k : string) :
  k ∉ additional_metadata_keys ->
  (build_aoi_met context met).2 !! k = met !! k.
Proof. intros Hk. by apply build_aoi_met_assigns_only. Qed.

(** What [build_aoi_met] left in [met] when it returned, up to the call of
    [parse_additional_metadata]. *)
Lemma build_aoi_met_ok (context met met' : pydict) :
  build_aoi_met context met = (Ok tt, met') ->
  exists d1 d2 d3,
    d1 = match context !! "username" with
         | Some v => <["username" := v]> met
         | None => met
         end
    /\ (d2 = d1 \/ exists t, d2 = <["eventtime" := PStr t]> d1)
    /\ d3 = match context !! "image_url" with
            | Some v => <["image_url" := v]> d2
            | None => d2
            end
    /\ match context !! "additional_metadata" with
       | Some additional_met => parse_additional_metadata additional_met d3 = (Ok tt, met')
       | None => met' = d3
       end.
Proof.
  unfold build_aoi_met.
  intros ([] & d1 & H1 & ([] & d2 & H2 & ([] & d3 & H3 & H4)%bind_ok)%bind_ok)%bind_ok.
  apply copy_step_ok in H1, H3. apply eventtime_step_ok in H2.
  exists d1, d2, d3. split; [done|]. split; [done|]. split; [done|].
  rewrite has_key_lookup in H4. unfold getitem in H4.
  destruct (context !! "additional_metadata"); [done|]. by injection H4.
Qed.

(** Without additional metadata, [username] and [image_url] of the context
    are copied into [met] as they are (no validation), and [met] keeps its
    own where the context has none. *)
Theorem build_aoi_met_copies_context (context met met' : pydict) (k : string) :
  k = "username" \/ k = "image_url" ->
  context !! "additional_metadata" = None ->
  build_aoi_met context met = (Ok tt, met') ->
  met' !! k = match context !! k with Some v => Some v | None => met !! k end.
Proof.
  intros Hk Hn (d1 & d2 & d3 & -> & H2 & -> & H4)%build_aoi_met_ok.
  rewrite Hn in H4. subst met'.
  destruct H2 as [->|(t & ->)], Hk as [->| ->];
    destruct (context !! "username"), (context !! "image_url");
    by simplify_map_eq.
Qed.

(** Additional metadata is applied after the context's own keys: where a
    dictionary of additional metadata holds [image_url] or [event_metadata],
    its value is the one [met] ends with, whatever the context holds under
    that key. *)
Theorem build_aoi_met_additional_wins
  (context met met' additional_met : pydict) (k : string) (v : pyval) :
  k = "image_url" \/ k = "event_metadata" ->
  context !! "additional_metadata" = Some (PDict additional_met) ->
  additional_met !! k = Some v ->
  build_aoi_met context met = (Ok tt, met') ->
  met' !! k = Some v.
Proof.
  intros Hk Ha Hv (d1 & d2 & d3 & _ & _ & _ & H4)%build_aoi_met_ok.
  rewrite Ha in H4.
  apply parse_additional_metadata_dict_ok in H4 as (e1 & e2 & _ & _ & ->).
  destruct Hk as [->| ->]; rewrite ?Hv;
    destruct (additional_met !! "event_metadata"), (additional_met !! "image_url");
    by simplify_map_eq.
Qed.

(** ** Further properties of the dataset record *)

Lemma validate_type_word_chars v t :
  validate_type v = Ok t -> Str.all word_char t = true.
Proof. pure. destruct v; try done. intros [= <-]. apply sanitize_word_chars. Qed.

Lemma validate_time_parsed v t :
  validate_time v = Ok t ->
  exists dt, parse v = Some dt /\ t = strftime year_digits dt "%Y-%m-%dT%H:%M:%SZ".
Proof.
  unfold validate_time. destruct (parse v) as [dt|] eqn:E; [|done].
  cbn -[strftime]. intros [= <-]. by exists dt.
Qed.

Lemma getitem_Ok (d : pydict) k v : getitem d k = Ok v -> d !! k = Some v.
Proof. pure. unfold getitem. destruct (d !! k); [|done]. by intros [= ->]. Qed.

Lemma validate_geojson_ok_mapping v location :
  validate_geojson v = Ok location ->
  exists shell polygon, Polygon shell = Some polygon /\ location = mapping polygon.
Proof.
  assert (forall w, is_str w = false -> validate_geojson w = Ok location ->
            exists shell polygon,
              Polygon shell = Some polygon /\ location = mapping polygon) as Hw.
  { intros w Hs. rewrite (validate_geojson_not_str w Hs).
    destruct w as [| | | | | | |d]; try done. cbn -[has_key].
    destruct (has_key d "coordinates"); cbn.
    - destruct (d !! "coordinates") as [c|]; [|done]. cbn.
      destruct (index0 c) as [shell|]; [|done]. cbn.
      destruct (Polygon shell) as [g|] eqn:Eg; [|done]. cbn. intros [= <-]. eauto.
    - destruct (Polygon (PDict d)) as [g|] eqn:Eg; [|done]. cbn. intros [= <-]. eauto. }
  destruct v as [| | | |s| | |]; try by apply Hw.
  unfold validate_geojson.
  destruct (loads_or_literal_eval s) as [w|] eqn:E; [|done].
  destruct w as [| | | |s'| | |d]; try done. apply (Hw (PDict d) eq_refl).
Qed.

(** The six assignments that precede the one of [emails]. *)
Lemma build_aoi_ds_ok (context ds ds' : pydict) :
  build_aoi_ds context ds = (Ok tt, ds') ->
  exists type_v aoi_type name_v label project geojson_v location
         start_v starttime end_v endtime email_list,
    context !! "type" = Some type_v /\ validate_type type_v = Ok aoi_type
    /\ context !! "name" = Some name_v /\ generate_label name_v aoi_type = Ok label
    /\ context !! "account" = Some project
    /\ context !! "geojson_polygon" = Some geojson_v
    /\ validate_geojson geojson_v = Ok location
    /\ context !! "starttime" = Some start_v /\ validate_time start_v = Ok starttime
    /\ context !! "endtime" = Some end_v /\ validate_time end_v = Ok endtime
    /\ ds' = <["emails" := PList email_list]> (<["endtime" := PStr endtime]>
             (<["starttime" := PStr starttime]> (<["location" := location]>
             (<["account" := project]> (<["type" := PStr aoi_type]>
             (<["label" := PStr label]> ds)))))).
Proof.
  unfold build_aoi_ds.
  destruct (has_key context "emails"); run.
  - repeat (next_call; [|done]).
    repeat match goal with H : getitem _ _ = Ok _ |- _ => apply getitem_Ok in H end.
    intros [= <-]. by eexists _, _, _, _, _, _, _, _, _, _, _, _.
  - repeat (next_call; [|done]). done.
Qed.

(** The record [build_aoi_ds] returns: [type] is made of letters, digits
    and underscores; [label] is [AOI_], that type, an underscore and a name
    made of such characters; [account] is the context's, as it is;
    [location] is [mapping] of a polygon [Polygon] accepted; [starttime] and
    [endtime] are what [strftime] gave for the date-times the parser
    returned on the context's values, strings of the shape
    [YYYY-MM-DDTHH:MM:SSZ] where those date-times have a year of four
    digits. *)
Theorem build_aoi_ds_record (context ds ds' : pydict) :
  build_aoi_ds context ds = (Ok tt, ds') ->
  exists (aoi_type name : string) (shell : pyval) (polygon : geometry)
         (start_v end_v : pyval) (start_dt end_dt : datetime),
    ds' !! "type" = Some (PStr aoi_type)
    /\ Str.all word_char aoi_type = true
    /\ ds' !! "label" = Some (PStr ("AOI_" +:+ aoi_type +:+ "_" +:+ name))
    /\ Str.all word_char name = true
    /\ ds' !! "account" = context !! "account"
    /\ Polygon shell = Some polygon
    /\ ds' !! "location" = Some (mapping polygon)
    /\ context !! "starttime" = Some start_v
    /\ parse start_v = Some start_dt
    /\ ds' !! "starttime"
       = Some (PStr (strftime year_digits start_dt "%Y-%m-%dT%H:%M:%SZ"))
    /\ (four_digit_year start_dt ->
        iso_z_shape (strftime year_digits start_dt "%Y-%m-%dT%H:%M:%SZ") = true)
    /\ context !! "endtime" = Some end_v
    /\ parse end_v = Some end_dt
    /\ ds' !! "endtime"
       = Some (PStr (strftime year_digits end_dt "%Y-%m-%dT%H:%M:%SZ"))
    /\ (four_digit_year end_dt ->
        iso_z_shape (strftime year_digits end_dt "%Y-%m-%dT%H:%M:%SZ") = true).
Proof using Type year_digits_four.
  intros (type_v & aoi_type & name_v & label & project & geojson_v & location
          & start_v & starttime & end_v & endtime & email_list
          & Ht & Hvt & Hn & Hl & Ha & Hg & Hvg & Hs & Hvs & He & Hve & ->)
         %build_aoi_ds_ok.
  destruct name_v as [| | | |name| | |]; try done.
  destruct (generate_label_rest name aoi_type) as (rest & Hr & _ & Hw).
  rewrite Hr in Hl. injection Hl as <-.
  apply validate_geojson_ok_mapping in Hvg as (shell & polygon & Hp & ->).
  apply validate_time_parsed in Hvs as (start_dt & Hsd & ->).
  apply validate_time_parsed in Hve as (end_dt & Hed & ->).
  exists aoi_type, rest, shell, polygon, start_v, end_v, start_dt, end_dt.
  rewrite Ha. repeat split; try done; try (by simplify_map_eq).
  - by eapply validate_type_word_chars.
  - apply strftime_shape.
  - apply strftime_shape.
Qed.

Lemma assigns_only_getitem_state keys k : assigns_only keys (getitem_state k).
Proof. by intros d k' _. Qed.

Lemma build_aoi_ds_assigns_only context :
  assigns_only dataset_keys (build_aoi_ds context).
Proof.
  unfold build_aoi_ds.
  repeat first
    [ apply assigns_only_ret
    | apply assigns_only_lift
    | apply assigns_only_getitem_state
    | apply assigns_only_setitem; unfold dataset_keys;
      repeat (apply elem_of_cons; first [left; reflexivity | right])
    | apply assigns_only_bind; [|intros ?]
    | match goal with
      | |- assigns_only _ (if ?b then _ else _) => destruct b
      | |- assigns_only _ (match ?o with Some _ => _ | None => _ end) => destruct o
      end ].
Qed.

(** Whatever the context and whatever the outcome, [build_aoi_ds] leaves
    every key of the template other than [label], [type], [account],
    [location], [starttime], [endtime] and [emails] with the value it
    had. *)
Theorem build_aoi_ds_frame (context ds : pydict) (k : string) :
  k ∉ dataset_keys ->
  (build_aoi_ds context ds).2 !! k = ds !! k.
Proof. intros Hk. by apply build_aoi_ds_assigns_only. Qed.

(** Every exception of [build_aoi_ds] but the one on the unbound
    [email_list] is raised before the first assignment; that one is raised
    after the six required keys were read. *)
Lemma build_aoi_ds_raise (context ds ds' : pydict) e :
  build_aoi_ds context ds = (Raise e, ds') ->
  ds' = ds
  \/ (context !! "emails" = None /\ e = UnboundLocalError "email_list"
      /\ Forall (fun k => is_Some (context !! k)) required_keys).
Proof.
  unfold build_aoi_ds. rewrite has_key_lookup.
  destruct (context !! "emails"); run.
  - repeat (next_call; [|intros [= _ <-]; by left]). done.
  - repeat (next_call; [|intros [= _ <-]; by left]).
    intros [= <- _]. right. split; [done|]. split; [done|].
    repeat match goal with H : getitem _ _ = Ok _ |- _ => apply getitem_Ok in H end.
    unfold required_keys. repeat constructor; eauto.
Qed.

(** With the key [emails] in the context, [build_aoi_ds] is all or nothing:
    when it raises, the template is as it was, with none of the fields
    assigned. *)
Theorem build_aoi_ds_raises_unchanged
  (context ds ds' : pydict) (emails : pyval) (e : pyexc) :
  context !! "emails" = Some emails ->
  build_aoi_ds context ds = (Raise e, ds') ->
  ds' = ds.
Proof.
  intros He [->|(Hn & _)]%build_aoi_ds_raise; [done|congruence].
Qed.

(** A context that lacks one of [type], [name], [account],
    [geojson_polygon], [starttime], [endtime] makes [build_aoi_ds] raise
    before any assignment. *)
Theorem build_aoi_ds_missing_key (context ds : pydict) (k : string) :
  k ∈ required_keys ->
  context !! k = None ->
  exists e, build_aoi_ds context ds = (Raise e, ds).
Proof.
  intros Hk Hn.
  destruct (build_aoi_ds context ds) as [[[]|e] ds'] eqn:E.
  - apply build_aoi_ds_ok in E
      as (? & ? & ? & ? & ? & ? & ? & ? & ? & ? & ? & ?
          & ? & ? & ? & ? & ? & ? & ? & ? & ? & ? & ? & ?).
    unfold required_keys in Hk.
    repeat (apply elem_of_cons in Hk as [->|Hk];
            [match goal with
             | H : _ !! _ = Some _ |- _ => rewrite Hn in H; discriminate H
             end|]).
    by apply elem_of_nil in Hk.
  - exists e. destruct (build_aoi_ds_raise _ _ _ _ E) as [->|(_ & _ & Hall)]; [done|].
    rewrite Forall_forall in Hall. destruct (Hall k Hk) as [v Hv]. congruence.
Qed.

(** With the key [emails] in the context, the template must hold a list
    under [emails]: where it has no such key, or another value there (a
    string of addresses, say), [build_aoi_ds] raises before any
    assignment. *)
Theorem build_aoi_ds_template_emails
  (context ds : pydict) (emails : pyval) :
  context !! "emails" = Some emails ->
  (forall template, ds !! "emails" <> Some (PList template)) ->
  exists e, build_aoi_ds context ds = (Raise e, ds).
Proof.
  intros He Ht.
  destruct (build_aoi_ds context ds) as [[[]|e] ds'] eqn:E.
  - apply build_aoi_ds_ok_emails in E as (template & ? & ? & Hd & _).
    by destruct (Ht template).
  - exists e. destruct (build_aoi_ds_raise _ _ _ _ E) as [->|(Hn & _)]; [done|].
    congruence.
Qed.




End Pipeline.

(** ** The pipeline on concrete inputs

    [dateutil_iso], [ring_polygon] and [ring_mapping] stand for the
    libraries; the decoders are consulted by none of the runs below. *)

Lemma glibc_year_four (y : Z) :
  1000 <= y <= 9999 -> glibc_year y = four_digits y.
Proof.
  intros Hy. unfold glibc_year.
  destruct (1000 <=? y) eqn:E; [done|]. apply Z.leb_gt in E. lia.
Qed.

(** Below the year 1000 the string is shorter: the year is not padded by
    this [%Y]. *)
Lemma validate_time_year_999 :
  validate_time glibc_year dateutil_iso (PStr "0999-01-01")
  = Ok "999-01-01T00:00:00Z".
Proof. reflexivity. Qed.

Lemma validate_time_formats_parsed_fields_witness :
  exists dt,
    dateutil_iso "2021-03-01 10:00" = Some dt
    /\ four_digit_year dt
    /\ validate_time glibc_year dateutil_iso (PStr "2021-03-01 10:00")
       = Ok (glibc_year (year dt) +:+ "-" +:+ zero_pad2 (month dt) +:+ "-"
             +:+ zero_pad2 (day dt) +:+ "T" +:+ zero_pad2 (hour dt) +:+ ":"
             +:+ zero_pad2 (minute dt) +:+ ":" +:+ zero_pad2 (second dt) +:+ "Z")
    /\ exists out,
         validate_time glibc_year dateutil_iso (PStr "2021-03-01 10:00") = Ok out
         /\ iso_z_shape out = true.
Proof.
  eexists. split; [reflexivity|].
  assert (four_digit_year (mkDatetime 2021 3 1 10 0 0 None)) as Hy
    by (unfold four_digit_year; cbn; lia).
  split; [exact Hy|].
  pose proof (validate_time_formats_parsed_fields glibc_year glibc_year_four
                dateutil_iso "2021-03-01 10:00") as [H1 H2].
  split; [exact H1|exact (H2 Hy)].
Defined.


(** The type is pasted into the label as it is. *)
Lemma generate_label_type_AOI :
  generate_label (PStr "AOI_Flood Zone") "AOI" = Ok "AOI_AOI_Flood_Zone".
Proof. reflexivity. Qed.

Lemma validate_time_example :
  validate_time glibc_year dateutil_iso (PStr "2021-03-01 10:00") = Ok "2021-03-01T10:00:00Z"
  /\ validate_time glibc_year dateutil_iso (PStr "not a date")
     = Raise (PyException "unable to parse input time: {0}" [PStr "not a date"]).
Proof. split; reflexivity. Qed.

(** C3, as the specification has it, fails on a string with a UTC offset:
    the instant [2021-03-01T10:00:00+05:00] is [05:00:00] in UTC, and
    [validate_time] returns its wall-clock time [10:00:00] with a [Z]. *)
Lemma validate_time_keeps_offset_wall_clock :
  exists dt : datetime,
    dateutil_iso "2021-03-01T10:00:00+05:00" = Some dt
    /\ utcoffset dt = Some 18000
    /\ utc_rendering glibc_year dt = "2021-03-01T05:00:00Z"
    /\ validate_time glibc_year dateutil_iso (PStr "2021-03-01T10:00:00+05:00")
       = Ok "2021-03-01T10:00:00Z"
    /\ validate_time glibc_year dateutil_iso (PStr "2021-03-01T10:00:00+05:00")
       <> Ok (utc_rendering glibc_year dt).
Proof.
  eexists. split; [reflexivity|]. split; [reflexivity|].
  split; [reflexivity|]. split; [reflexivity|].
  intros H. vm_compute in H. discriminate H.
Qed.

(** C5, as the specification has it, fails on [None]: [None == ''] is
    false, and the parser raises on a value that is no string. *)
Lemma validate_event_time_none_raises :
  validate_event_time glibc_year dateutil_iso PNone
  = Raise (PyException "unable to parse input time: {0}" [PNone])
  /\ validate_event_time glibc_year dateutil_iso PNone <> Ok None.
Proof. split; [reflexivity|]. intros H. vm_compute in H. discriminate H. Qed.

Lemma validate_event_time_empty_string_only_witness :
  PStr "2021-03-01 10:00" <> PStr ""
  /\ validate_event_time glibc_year dateutil_iso (PStr "2021-03-01 10:00")
     = Some <$> validate_time glibc_year dateutil_iso (PStr "2021-03-01 10:00").
Proof.
  split; [discriminate|].
  apply (proj2 (proj2 (validate_event_time_empty_string_only glibc_year dateutil_iso))).
  discriminate.
Defined.

(** The context with the six required keys and no [emails]: every
    validator returns, the six fields are assigned, and [UnboundLocalError]
    is raised. *)
Lemma build_aoi_ds_minimal_context :
  exists location : pyval,
    validate_geojson no_decoder no_decoder _ ring_polygon ring_mapping
      (PDict {[ "coordinates" := PList [PList unit_square] ]}) = Ok location
    /\ build_aoi_ds glibc_year dateutil_iso no_decoder no_decoder _ ring_polygon
         ring_mapping insertion_order minimal_context template_ds
       = (Raise (UnboundLocalError "email_list"),
          <["endtime" := PStr "2021-04-01T10:00:00Z"]>
          (<["starttime" := PStr "2021-03-01T10:00:00Z"]>
          (<["location" := location]> (<["account" := PStr "ops"]>
          (<["type" := PStr "Wildfire"]>
          (<["label" := PStr "AOI_Wildfire_Flood_Zone"]> template_ds)))))).
Proof. eexists. split; vm_compute; reflexivity. Qed.

Lemma build_aoi_ds_without_emails_raises_witness :
  minimal_context !! "emails" = None
  /\ exists e ds',
       build_aoi_ds glibc_year dateutil_iso no_decoder no_decoder _ ring_polygon
         ring_mapping insertion_order minimal_context template_ds
       = (Raise e, ds').
Proof.
  split; [reflexivity|].
  apply build_aoi_ds_without_emails_raises. reflexivity.
Defined.

(** The ring of the specification's example: rejected as a bare list,
    accepted under the key [coordinates]. *)
Lemma validate_geojson_unit_square :
  validate_geojson no_decoder no_decoder _ ring_polygon ring_mapping
    (PList unit_square)
  = Raise (PyException "unable to parse geojson: {0}" [PList unit_square])
  /\ validate_geojson no_decoder no_decoder _ ring_polygon ring_mapping
       (PDict {[ "coordinates" := PList [PList unit_square] ]})
     = Ok (ring_mapping [(0, 0); (0, 1); (1, 1); (1, 0); (0, 0)]%float).
Proof. split; vm_compute; reflexivity. Qed.

Lemma build_aoi_ds_emails_union_witness :
  let context := <["emails" := PStr "a@x.com, b@x.com,a@x.com"]> minimal_context in
  let run := build_aoi_ds glibc_year dateutil_iso no_decoder no_decoder _ ring_polygon
               ring_mapping insertion_order context template_ds in
  run.1 = Ok tt
  /\ (run.2) !! "emails" = Some (PList [PStr "ops@x.com"; PStr "b@x.com"; PStr "a@x.com"])
  /\ exists parsed out,
       parse_emails (PStr "a@x.com, b@x.com,a@x.com") = Ok parsed
       /\ (run.2) !! "emails" = Some (PList out)
       /\ NoDup out
       /\ (forall x, x ∈ out <-> x ∈ [PStr "ops@x.com"; PStr "b@x.com"] \/ x ∈ parsed).
Proof.
  intros context run. split; [vm_compute; reflexivity|].
  split; [vm_compute; reflexivity|].
  apply (build_aoi_ds_emails_union glibc_year dateutil_iso no_decoder no_decoder _
           ring_polygon ring_mapping insertion_order
           (fun members => Permutation_refl members)
           context template_ds).
  - reflexivity.
  - reflexivity.
  - repeat constructor.
  - vm_compute. reflexivity.
Defined.

Lemma parse_additional_metadata_frame_witness :
  let additional_met := PDict {[ "eventtime" := PStr "2021-03-01 10:00" ]} in
  let met : pydict := {[ "label" := PStr "AOI_x" ]} in
  let run := parse_additional_metadata glibc_year dateutil_iso no_decoder no_decoder in
  ("label" ∉ additional_metadata_keys)
  /\ (run additional_met met).2 !! "eventtime" = Some (PStr "2021-03-01T10:00:00Z")
  /\ (run additional_met met).2 !! "label" = met !! "label"
  /\ run (PStr "") met = (Ok tt, met)
  /\ run PNone met = (Ok tt, met).
Proof.
  intros additional_met met run.
  assert ("label" ∉ additional_metadata_keys) as Hk.
  { intros Hin. unfold additional_metadata_keys in Hin.
    repeat (apply elem_of_cons in Hin as [Hin|Hin]; [discriminate Hin|]).
    by apply elem_of_nil in Hin. }
  split; [exact Hk|]. split; [vm_compute; reflexivity|].
  exact (parse_additional_metadata_frame glibc_year dateutil_iso no_decoder no_decoder
           additional_met met "label" Hk).
Defined.

(** ** The further properties on concrete inputs *)

Lemma generate_label_word_chars_witness :
  validate_type (PStr "Wild fire!") = Ok "Wild_fire"
  /\ generate_label (PStr "AOI_../Flood Zone") "Wild_fire"
     = Ok "AOI_Wild_fire_Flood_Zone"
  /\ Str.all word_char "AOI_Wild_fire_Flood_Zone" = true.
Proof.
  split; [reflexivity|]. split; [reflexivity|].
  exact (generate_label_word_chars (PStr "Wild fire!") (PStr "AOI_../Flood Zone")
           "Wild_fire" "AOI_Wild_fire_Flood_Zone" eq_refl eq_refl).
Defined.


Lemma validate_geojson_decodes_witness :
  loads_or_literal_eval no_decoder literal_eval_square square_text
  = Some (PDict {[ "coordinates" := PList [PList unit_square] ]})
  /\ validate_geojson no_decoder literal_eval_square _ ring_polygon ring_mapping
       (PStr square_text)
     = validate_geojson no_decoder literal_eval_square _ ring_polygon ring_mapping
         (PDict {[ "coordinates" := PList [PList unit_square] ]}).
Proof.
  split; [reflexivity|].
  exact (validate_geojson_decodes no_decoder literal_eval_square _ ring_polygon
           ring_mapping square_text eq_refl).
Defined.

Lemma validate_geojson_first_ring_witness :
  let hole := PList [PList [PInt 5; PInt 5]] in
  let d : pydict :=
    <["type" := PStr "Point"]>
      {[ "coordinates" := PList [PList unit_square; hole] ]} in
  d !! "coordinates" = Some (PList [PList unit_square; hole])
  /\ ring_polygon (PList unit_square)
     = Some [(0, 0); (0, 1); (1, 1); (1, 0); (0, 0)]%float
  /\ validate_geojson no_decoder no_decoder _ ring_polygon ring_mapping (PDict d)
     = Ok (ring_mapping [(0, 0); (0, 1); (1, 1); (1, 0); (0, 0)]%float).
Proof.
  intros hole d.
  assert (d !! "coordinates" = Some (PList [PList unit_square; hole])) as Hc
    by (vm_compute; reflexivity).
  assert (ring_polygon (PList unit_square)
          = Some [(0, 0); (0, 1); (1, 1); (1, 0); (0, 0)]%float) as Hp
    by (vm_compute; reflexivity).
  split; [exact Hc|]. split; [exact Hp|].
  exact (validate_geojson_first_ring no_decoder no_decoder _ ring_polygon
           ring_mapping d _ (PList unit_square) _ Hc eq_refl Hp).
Defined.

Lemma validate_geojson_no_first_ring_witness :
  let d : pydict := {[ "coordinates" := PList [] ]} in
  d !! "coordinates" = Some (PList [])
  /\ validate_geojson no_decoder no_decoder _ ring_polygon ring_mapping (PDict d)
     = Raise (PyException "unable to parse geojson: {0}" [PDict d]).
Proof.
  intros d.
  assert (d !! "coordinates" = Some (PList [])) as Hc by (vm_compute; reflexivity).
  split; [exact Hc|].
  exact (validate_geojson_no_first_ring no_decoder no_decoder _ ring_polygon
           ring_mapping d (PList []) Hc eq_refl).
Defined.

Lemma parse_additional_metadata_decodes_witness :
  let d : pydict := {[ "coordinates" := PList [PList unit_square] ]} in
  let met : pydict := {[ "label" := PStr "AOI_x" ]} in
  square_text <> ""
  /\ loads_or_literal_eval no_decoder literal_eval_square square_text = Some (PDict d)
  /\ parse_additional_metadata glibc_year dateutil_iso no_decoder literal_eval_square
       (PStr square_text) met
     = parse_additional_metadata glibc_year dateutil_iso no_decoder literal_eval_square
         (PDict d) met.
Proof.
  intros d met.
  assert (square_text <> "") as Hs by discriminate.
  split; [exact Hs|]. split; [reflexivity|].
  exact (parse_additional_metadata_decodes glibc_year dateutil_iso no_decoder
           literal_eval_square square_text d met Hs eq_refl).
Defined.

Lemma parse_additional_metadata_rejects_witness :
  let met : pydict := {[ "label" := PStr "AOI_x" ]} in
  exists e,
    parse_additional_metadata glibc_year dateutil_iso no_decoder no_decoder
      (PList [PStr "username"; PStr "alice"]) met = (Raise e, met).
Proof.
  intros met.
  apply (parse_additional_metadata_rejects glibc_year dateutil_iso no_decoder no_decoder
           (PList [PStr "username"; PStr "alice"]) met);
    [discriminate|discriminate|discriminate|discriminate].
Defined.

Lemma parse_additional_metadata_copies_witness :
  let d : pydict := {[ "image_url" := PInt 7 ]} in
  let met : pydict :=
    <["image_url" := PStr "old"]> {[ "event_metadata" := PStr "kept" ]} in
  let run := parse_additional_metadata glibc_year dateutil_iso no_decoder no_decoder (PDict d) met in
  run.1 = Ok tt
  /\ (run.2) !! "image_url" = Some (PInt 7)
  /\ (run.2) !! "image_url"
     = match d !! "image_url" with Some v => Some v | None => met !! "image_url" end.
Proof.
  intros d met run.
  split; [vm_compute; reflexivity|]. split; [vm_compute; reflexivity|].
  apply (parse_additional_metadata_copies glibc_year dateutil_iso no_decoder no_decoder d met
           run.2 "image_url"); [by left|vm_compute; reflexivity].
Defined.

Lemma build_aoi_met_eventtime_rendered_witness :
  let context : pydict :=
    <["eventtime" := PStr "2021-03-01 10:00"]>
      {[ "additional_metadata" := PDict {[ "eventtime" := PStr "" ]} ]} in
  let run := build_aoi_met glibc_year dateutil_iso no_decoder no_decoder context ∅ in
  eventtime_rendered glibc_year dateutil_iso ∅
  /\ (run.2) !! "eventtime" = Some (PStr "2021-03-01T10:00:00Z")
  /\ eventtime_rendered glibc_year dateutil_iso run.2.
Proof.
  intros context run.
  assert (eventtime_rendered glibc_year dateutil_iso ∅) as H0 by exact I.
  split; [exact H0|]. split; [vm_compute; reflexivity|].
  exact (build_aoi_met_eventtime_rendered glibc_year glibc_year_four
           dateutil_iso no_decoder no_decoder context ∅ H0).
Defined.

Lemma build_aoi_met_frame_witness :
  let context : pydict :=
    <["username" := PStr "alice"]> {[ "eventtime" := PStr "not a date" ]} in
  let met : pydict := {[ "version" := PStr "v1.0" ]} in
  let run := build_aoi_met glibc_year dateutil_iso no_decoder no_decoder context met in
  ("version" ∉ additional_metadata_keys)
  /\ run.1 = Raise (PyException "unable to parse input time: {0}" [PStr "not a date"])
  /\ (run.2) !! "username" = Some (PStr "alice")
  /\ (run.2) !! "version" = met !! "version".
Proof.
  intros context met run.
  assert ("version" ∉ additional_metadata_keys) as Hk.
  { intros Hin. unfold additional_metadata_keys in Hin.
    repeat (apply elem_of_cons in Hin as [Hin|Hin]; [discriminate Hin|]).
    by apply elem_of_nil in Hin. }
  split; [exact Hk|]. split; [vm_compute; reflexivity|].
  split; [vm_compute; reflexivity|].
  exact (build_aoi_met_frame glibc_year dateutil_iso no_decoder no_decoder context met
           "version" Hk).
Defined.

Lemma build_aoi_met_copies_context_witness :
  let context : pydict :=
    <["username" := PInt 42]> {[ "eventtime" := PStr "" ]} in
  let met : pydict := {[ "username" := PStr "default" ]} in
  let run := build_aoi_met glibc_year dateutil_iso no_decoder no_decoder context met in
  run.1 = Ok tt
  /\ (run.2) !! "username" = Some (PInt 42)
  /\ (run.2) !! "username"
     = match context !! "username" with
       | Some v => Some v
       | None => met !! "username"
       end.
Proof.
  intros context met run.
  split; [vm_compute; reflexivity|]. split; [vm_compute; reflexivity|].
  apply (build_aoi_met_copies_context glibc_year dateutil_iso no_decoder no_decoder
           context met run.2 "username");
    [by left|vm_compute; reflexivity|vm_compute; reflexivity].
Defined.

Lemma build_aoi_met_additional_wins_witness :
  let additional_met : pydict := {[ "image_url" := PStr "http://x/new.png" ]} in
  let context : pydict :=
    <["image_url" := PStr "http://x/old.png"]>
      {[ "additional_metadata" := PDict additional_met ]} in
  let run := build_aoi_met glibc_year dateutil_iso no_decoder no_decoder context ∅ in
  run.1 = Ok tt
  /\ (run.2) !! "image_url" = Some (PStr "http://x/new.png").
Proof.
  intros additional_met context run.
  split; [vm_compute; reflexivity|].
  apply (build_aoi_met_additional_wins glibc_year dateutil_iso no_decoder no_decoder
           context ∅ run.2 additional_met "image_url");
    [by left|vm_compute; reflexivity|vm_compute; reflexivity
    |vm_compute; reflexivity].
Defined.

Lemma build_aoi_ds_record_witness :
  let context := <["emails" := PList []]> minimal_context in
  let run := build_aoi_ds glibc_year dateutil_iso no_decoder no_decoder _
               ring_polygon ring_mapping insertion_order context template_ds in
  run.1 = Ok tt
  /\ (run.2) !! "label" = Some (PStr "AOI_Wildfire_Flood_Zone")
  /\ (run.2) !! "starttime" = Some (PStr "2021-03-01T10:00:00Z")
  /\ exists (aoi_type name : string) (shell : pyval)
            (polygon : list (float * float))
            (start_v end_v : pyval) (start_dt end_dt : datetime),
       (run.2) !! "type" = Some (PStr aoi_type)
       /\ Str.all word_char aoi_type = true
       /\ (run.2) !! "label" = Some (PStr ("AOI_" +:+ aoi_type +:+ "_" +:+ name))
       /\ Str.all word_char name = true
       /\ (run.2) !! "account" = context !! "account"
       /\ ring_polygon shell = Some polygon
       /\ (run.2) !! "location" = Some (ring_mapping polygon)
       /\ context !! "starttime" = Some start_v
       /\ parse dateutil_iso start_v = Some start_dt
       /\ (run.2) !! "starttime"
          = Some (PStr (strftime glibc_year start_dt "%Y-%m-%dT%H:%M:%SZ"))
       /\ (four_digit_year start_dt ->
           iso_z_shape (strftime glibc_year start_dt "%Y-%m-%dT%H:%M:%SZ") = true)
       /\ context !! "endtime" = Some end_v
       /\ parse dateutil_iso end_v = Some end_dt
       /\ (run.2) !! "endtime"
          = Some (PStr (strftime glibc_year end_dt "%Y-%m-%dT%H:%M:%SZ"))
       /\ (four_digit_year end_dt ->
           iso_z_shape (strftime glibc_year end_dt "%Y-%m-%dT%H:%M:%SZ") = true).
Proof.
  intros context run.
  split; [vm_compute; reflexivity|]. split; [vm_compute; reflexivity|].
  split; [vm_compute; reflexivity|].
  apply (build_aoi_ds_record glibc_year glibc_year_four dateutil_iso no_decoder
           no_decoder _ ring_polygon ring_mapping insertion_order context
           template_ds run.2).
  vm_compute. reflexivity.
Defined.

Lemma build_aoi_ds_frame_witness :
  let ds : pydict := <["version" := PStr "v1.0"]> template_ds in
  let run := build_aoi_ds glibc_year dateutil_iso no_decoder no_decoder _ ring_polygon
               ring_mapping insertion_order minimal_context ds in
  ("version" ∉ dataset_keys)
  /\ (run.2) !! "label" = Some (PStr "AOI_Wildfire_Flood_Zone")
  /\ (run.2) !! "version" = ds !! "version".
Proof.
  intros ds run.
  assert ("version" ∉ dataset_keys) as Hk.
  { intros Hin. unfold dataset_keys in Hin.
    repeat (apply elem_of_cons in Hin as [Hin|Hin]; [discriminate Hin|]).
    by apply elem_of_nil in Hin. }
  split; [exact Hk|]. split; [vm_compute; reflexivity|].
  exact (build_aoi_ds_frame glibc_year dateutil_iso no_decoder no_decoder _ ring_polygon
           ring_mapping insertion_order minimal_context ds "version" Hk).
Defined.

Lemma build_aoi_ds_raises_unchanged_witness :
  let context :=
    <["emails" := PStr "a@x.com"]> (<["endtime" := PStr "not a date"]> minimal_context) in
  let run := build_aoi_ds glibc_year dateutil_iso no_decoder no_decoder _ ring_polygon
               ring_mapping insertion_order context template_ds in
  run.1 = Raise (PyException "unable to parse input time: {0}" [PStr "not a date"])
  /\ run.2 = template_ds.
Proof.
  intros context run.
  assert (run = (Raise (PyException "unable to parse input time: {0}"
                          [PStr "not a date"]), run.2)) as H
    by (vm_compute; reflexivity).
  split; [vm_compute; reflexivity|].
  exact (build_aoi_ds_raises_unchanged glibc_year dateutil_iso no_decoder no_decoder _
           ring_polygon ring_mapping insertion_order context template_ds run.2
           (PStr "a@x.com") _ eq_refl H).
Defined.

Lemma build_aoi_ds_missing_key_witness :
  let context := delete "geojson_polygon" minimal_context in
  ("geojson_polygon" ∈ required_keys)
  /\ context !! "geojson_polygon" = None
  /\ exists e,
       build_aoi_ds glibc_year dateutil_iso no_decoder no_decoder _ ring_polygon
         ring_mapping insertion_order context template_ds = (Raise e, template_ds).
Proof.
  intros context.
  assert ("geojson_polygon" ∈ required_keys) as Hk.
  { unfold required_keys.
    repeat (apply elem_of_cons; first [left; reflexivity | right]). }
  split; [exact Hk|]. split; [reflexivity|].
  exact (build_aoi_ds_missing_key glibc_year dateutil_iso no_decoder no_decoder _
           ring_polygon ring_mapping insertion_order context template_ds
           "geojson_polygon" Hk eq_refl).
Defined.

Lemma build_aoi_ds_template_emails_witness :
  let context := <["emails" := PStr "a@x.com"]> minimal_context in
  let ds : pydict := {[ "emails" := PStr "ops@x.com,b@x.com" ]} in
  exists e,
    build_aoi_ds glibc_year dateutil_iso no_decoder no_decoder _ ring_polygon
      ring_mapping insertion_order context ds = (Raise e, ds).
Proof.
  intros context ds.
  apply (build_aoi_ds_template_emails glibc_year dateutil_iso no_decoder no_decoder _
           ring_polygon ring_mapping insertion_order context ds (PStr "a@x.com"));
    [reflexivity|].
  intros template H. vm_compute in H. discriminate H.
Defined.

